(** * A shallow embedding of the policy core of CiliTest

    The Python sources handle policy documents as the trees that
    [yaml.safe_load] / [json.load] return: [None], booleans, integers,
    strings, lists and dicts.  This file embeds that data model, the
    Python operations the sources apply to it ([dict.get], [in],
    subscripting, iteration, truthiness, [str], [str.upper]) and, on top
    of it, the functions of

    - [src/src/tester.py]     : [_simulate_policy_enforcement]
    - [src/src/converter.py]  : the document-building part of [convert_rules]
    - [src/src/visualizer.py] : [_extract_connections]
    - [src/src/validator.py]  : [CILIUM_NETWORK_POLICY_SCHEMA] with the
                                Draft-7 keywords it uses, [ValidationResult],
                                [validate_cilium_schema], [generate_suggestions]
                                and [validate_policy].

    Python exceptions are the [Exc] branch of a small error monad. *)

From Stdlib Require Import String Ascii List ZArith NArith Bool Lia.
Import ListNotations.
Open Scope string_scope.
Open Scope list_scope.
Set Warnings "-register-all".

(* ================================================================= *)
(** ** Python values and exceptions *)

Module Py.

(** The trees produced by the YAML / JSON loaders (floats and non-string
    dict keys do not occur in the documents handled here).  A dict is
    kept as its list of items in insertion order. *)
Inductive value : Type :=
| VNone
| VBool (b : bool)
| VInt (z : Z)
| VStr (s : string)
| VList (l : list value)
| VDict (kvs : list (string * value)).

(** A raised Python exception: its class name and message. *)
Record exn : Type := PyExc { exn_cls : string; exn_msg : string }.

Inductive result (A : Type) : Type :=
| Ok (a : A)
| Exc (e : exn).
Arguments Ok {A} a.
Arguments Exc {A} e.

Definition bind {A B} (m : result A) (k : A -> result B) : result B :=
  match m with
  | Ok a => k a
  | Exc e => Exc e
  end.

Notation "x <- m ;; k" := (bind m (fun x => k))
  (at level 61, m at next level, right associativity).

Definition type_name (v : value) : string :=
  match v with
  | VNone => "NoneType"
  | VBool _ => "bool"
  | VInt _ => "int"
  | VStr _ => "str"
  | VList _ => "list"
  | VDict _ => "dict"
  end.

Definition attr_error (v : value) (attr : string) : exn :=
  PyExc "AttributeError"
    ("'" ++ type_name v ++ "' object has no attribute '" ++ attr ++ "'")%string.

Definition type_error (msg : string) : exn := PyExc "TypeError" msg.

(** First binding of a key in a dict's items. *)
Fixpoint lookup (k : string) (kvs : list (string * value)) : option value :=
  match kvs with
  | [] => None
  | (k', v) :: rest => if String.eqb k k' then Some v else lookup k rest
  end.

(** Python truthiness. *)
Definition truthy (v : value) : bool :=
  match v with
  | VNone => false
  | VBool b => b
  | VInt z => negb (Z.eqb z 0)
  | VStr s => negb (String.eqb s EmptyString)
  | VList l => match l with [] => false | _ => true end
  | VDict kvs => match kvs with [] => false | _ => true end
  end.

(** [a or b] on already evaluated operands. *)
Definition py_or (a b : value) : value := if truthy a then a else b.

(** [d.get(k, default)]: only dicts have [get]. *)
Definition py_get (d : value) (k : string) (dflt : value) : result value :=
  match d with
  | VDict kvs => Ok (match lookup k kvs with Some v => v | None => dflt end)
  | _ => Exc (attr_error d "get")
  end.

Fixpoint chars (s : string) : list value :=
  match s with
  | EmptyString => []
  | String c rest => VStr (String c EmptyString) :: chars rest
  end.

(** [for x in v]: lists yield their items, dicts their keys, strings
    their characters; anything else is not iterable. *)
Definition py_iter (v : value) : result (list value) :=
  match v with
  | VList l => Ok l
  | VDict kvs => Ok (map (fun kv => VStr (fst kv)) kvs)
  | VStr s => Ok (chars s)
  | _ => Exc (type_error ("'" ++ type_name v ++ "' object is not iterable")%string)
  end.

Fixpoint substring_of (needle hay : string) : bool :=
  String.prefix needle hay ||
  match hay with
  | EmptyString => false
  | String _ rest => substring_of needle rest
  end.

(** [k in c] for a string [k]. *)
Definition py_contains (c : value) (k : string) : result bool :=
  match c with
  | VDict kvs => Ok (match lookup k kvs with Some _ => true | None => false end)
  | VList l => Ok (existsb (fun x => match x with VStr s => String.eqb s k | _ => false end) l)
  | VStr s => Ok (substring_of k s)
  | _ => Exc (type_error ("argument of type '" ++ type_name c
                           ++ "' is not iterable")%string)
  end.

(** [repr] of a string, with Python's choice of quote. *)
Definition hex_digit (n : nat) : ascii :=
  if Nat.ltb n 10 then ascii_of_nat (48 + n) else ascii_of_nat (87 + n).

Fixpoint escape_chars (q : ascii) (s : string) : string :=
  match s with
  | EmptyString => EmptyString
  | String c rest =>
      let n := nat_of_ascii c in
      let e :=
        if Ascii.eqb c "\" then "\\"%string
        else if Ascii.eqb c q then String "\" (String q EmptyString)
        else if Nat.eqb n 10 then "\n"%string
        else if Nat.eqb n 13 then "\r"%string
        else if Nat.eqb n 9 then "\t"%string
        else if Nat.ltb n 32 || Nat.eqb n 127 then
          String "\" (String "x" (String (hex_digit (n / 16))
                                   (String (hex_digit (n mod 16)) EmptyString)))
        else String c EmptyString in
      (e ++ escape_chars q rest)%string
  end.

Definition has_char (c : ascii) (s : string) : bool :=
  existsb (Ascii.eqb c) (list_ascii_of_string s).

(** The double quote character. *)
Definition dquote : ascii := ascii_of_nat 34.

Definition repr_str (s : string) : string :=
  let q := if has_char "'" s && negb (has_char dquote s) then dquote else "'"%char in
  String q (escape_chars q s ++ String q EmptyString).

(** Decimal digits of a natural number. *)
Fixpoint dec_aux (fuel : nat) (n : N) (acc : string) : string :=
  match fuel with
  | O => acc
  | S f =>
      let acc' := String (ascii_of_N (48 + N.modulo n 10)) acc in
      if N.ltb n 10 then acc' else dec_aux f (N.div n 10) acc'
  end.

Definition dec_N (n : N) : string :=
  dec_aux (S (match n with N0 => O | Npos p => Pos.size_nat p end)) n EmptyString.

Definition dec_Z (z : Z) : string :=
  match z with
  | Zneg p => ("-" ++ dec_N (Npos p))%string
  | _ => dec_N (Z.to_N z)
  end.

Fixpoint join (sep : string) (l : list string) : string :=
  match l with
  | [] => EmptyString
  | [x] => x
  | x :: rest => (x ++ sep ++ join sep rest)%string
  end.

(** [repr] and [str]. *)
Fixpoint repr (v : value) : string :=
  match v with
  | VNone => "None"
  | VBool true => "True"
  | VBool false => "False"
  | VInt z => dec_Z z
  | VStr s => repr_str s
  | VList l => ("[" ++ join ", " (map repr l) ++ "]")%string
  | VDict kvs =>
      ("{" ++ join ", " (map (fun kv => repr_str (fst kv) ++ ": " ++ repr (snd kv)) kvs)
       ++ "}")%string
  end.

Definition py_str (v : value) : string :=
  match v with
  | VStr s => s
  | _ => repr v
  end.

(** [s.upper()] on ASCII text. *)
Definition upper_char (c : ascii) : ascii :=
  let n := nat_of_ascii c in
  if Nat.leb 97 n && Nat.leb n 122 then ascii_of_nat (n - 32) else c.

Fixpoint upper (s : string) : string :=
  match s with
  | EmptyString => EmptyString
  | String c rest => String (upper_char c) (upper rest)
  end.

(** [v == s] against a string literal or a [str] argument. *)
Definition eq_str (v : value) (s : string) : bool :=
  match v with
  | VStr t => String.eqb t s
  | _ => false
  end.

(** Pure views used in statements: the value a dict binds to a key. *)
Definition dict_lookup (v : value) (k : string) : option value :=
  match v with
  | VDict kvs => lookup k kvs
  | _ => None
  end.

Definition is_dict (v : value) : bool :=
  match v with VDict _ => true | _ => false end.

(** [c[k]] for a string key [k]. *)
Definition py_getitem (c : value) (k : string) : result value :=
  match c with
  | VDict kvs =>
      match lookup k kvs with
      | Some v => Ok v
      | None => Exc (PyExc "KeyError" (repr_str k))
      end
  | VList _ => Exc (type_error "list indices must be integers or slices, not str")
  | VStr _ => Exc (type_error "string indices must be integers, not 'str'")
  | _ => Exc (type_error ("'" ++ type_name c ++ "' object is not subscriptable")%string)
  end.

(** [v.upper()]: only strings have [upper]. *)
Definition py_upper (v : value) : result value :=
  match v with
  | VStr s => Ok (VStr (upper s))
  | _ => Exc (attr_error v "upper")
  end.

(** Keys of a Python dict must be hashable; lists and dicts are not. *)
Definition hashable (v : value) : bool :=
  match v with VList _ | VDict _ => false | _ => true end.

(** Equality of hashable keys ([True == 1] in Python). *)
Definition py_key_eq (a b : value) : bool :=
  match a, b with
  | VNone, VNone => true
  | VBool x, VBool y => Bool.eqb x y
  | VBool x, VInt z | VInt z, VBool x => Z.eqb z (if x then 1 else 0)
  | VInt x, VInt y => Z.eqb x y
  | VStr x, VStr y => String.eqb x y
  | _, _ => false
  end.

(** A loop that collects the results of a fallible body. *)
Fixpoint map_res {A B} (f : A -> result B) (l : list A) : result (list B) :=
  match l with
  | [] => Ok []
  | x :: rest => y <- f x ;; ys <- map_res f rest ;; Ok (y :: ys)
  end.

(** A loop whose body extends the output list. *)
Fixpoint concat_res {A B} (f : A -> result (list B)) (l : list A) : result (list B) :=
  match l with
  | [] => Ok []
  | x :: rest => ys <- f x ;; zs <- concat_res f rest ;; Ok (ys ++ zs)
  end.

End Py.
Import Py.

(* ================================================================= *)
(** ** [src/src/tester.py]: the enforcement simulator *)

Module Tester.

Definition ALLOWED : string := "allowed".
Definition BLOCKED : string := "blocked".

(** [for port_spec in ports: if port_spec.get("port") == port or port == "any": ...]
    ([true]: the function returned "allowed"). *)
Fixpoint sim_port_specs (port : string) (ports : list value) : result bool :=
  match ports with
  | [] => Ok false
  | port_spec :: rest =>
      p <- py_get port_spec "port" VNone ;;
      if eq_str p port || String.eqb port "any" then Ok true
      else sim_port_specs port rest
  end.

(** [for port_rule in to_ports: ports = port_rule.get("ports", []); ...] *)
Fixpoint sim_port_rules (port : string) (to_ports : list value) : result bool :=
  match to_ports with
  | [] => Ok false
  | port_rule :: rest =>
      ports <- py_get port_rule "ports" (VList []) ;;
      ps <- py_iter ports ;;
      found <- sim_port_specs port ps ;;
      if found then Ok true else sim_port_rules port rest
  end.

(** The outcome of a loop: [Some r] when the function returned [r] from
    inside it, [None] when the loop ran to its end. *)
Definition outcome := option (string * string).

(** [for endpoint in to_endpoints: ...] inside one egress rule. *)
Fixpoint sim_endpoints (dest port : string) (egress : value)
    (to_endpoints : list value) : result outcome :=
  match to_endpoints with
  | [] => Ok None
  | endpoint :: rest =>
      dest_labels <- py_get endpoint "matchLabels" (VDict []) ;;
      app <- py_get dest_labels "app" VNone ;;
      if eq_str app dest then
        to_ports <- py_get egress "toPorts" (VList []) ;;
        if negb (truthy to_ports) then
          Ok (Some (ALLOWED, "Policy explicitly allows connection"%string))
        else
          tps <- py_iter to_ports ;;
          found <- sim_port_rules port tps ;;
          if found then
            Ok (Some (ALLOWED, ("Policy allows connection on port " ++ port)%string))
          else sim_endpoints dest port egress rest
      else sim_endpoints dest port egress rest
  end.

(** [for egress in egress_rules: to_endpoints = egress.get("toEndpoints", []); ...] *)
Fixpoint sim_egress (dest port : string) (egress_rules : list value) : result outcome :=
  match egress_rules with
  | [] => Ok None
  | egress :: rest =>
      to_endpoints <- py_get egress "toEndpoints" (VList []) ;;
      eps <- py_iter to_endpoints ;;
      o <- sim_endpoints dest port egress eps ;;
      match o with
      | Some r => Ok (Some r)
      | None => sim_egress dest port rest
      end
  end.

(** [for spec in specs: ...] *)
Fixpoint sim_specs (src dest port : string) (specs : list value) : result outcome :=
  match specs with
  | [] => Ok None
  | spec :: rest =>
      endpoint_selector <- py_get spec "endpointSelector" (VDict []) ;;
      src_labels <- py_get endpoint_selector "matchLabels" (VDict []) ;;
      app <- py_get src_labels "app" VNone ;;
      if eq_str app src then
        egress_rules <- py_get spec "egress" (VList []) ;;
        ers <- py_iter egress_rules ;;
        o <- sim_egress dest port ers ;;
        match o with
        | Some r => Ok (Some r)
        | None => sim_specs src dest port rest
        end
      else sim_specs src dest port rest
  end.

(** [specs = cnp.get("specs") or cnp.get("spec") or []] *)
Definition select_specs (cnp : value) : result value :=
  a <- py_get cnp "specs" VNone ;;
  if truthy a then Ok a
  else b <- py_get cnp "spec" VNone ;;
       Ok (py_or b (VList [])).

(** [_simulate_policy_enforcement(src, dest, port, cnp)] *)
Definition _simulate_policy_enforcement (src dest port : string) (cnp : value)
    : result (string * string) :=
  specs <- select_specs cnp ;;
  ss <- py_iter specs ;;
  o <- sim_specs src dest port ss ;;
  match o with
  | Some r => Ok r
  | None => Ok (BLOCKED, "No policy rule allows this connection"%string)
  end.

End Tester.
(* ================================================================= *)
(** ** [src/src/converter.py]: grouping flat rules into a policy *)

Module Converter.

(** [grouped[r["src"]].append(r)] on a [defaultdict(list)]; groups keep
    the order of their first key, and the key stored is the first one. *)
Fixpoint add_to_group (key r : value) (groups : list (value * list value))
    : list (value * list value) :=
  match groups with
  | [] => [(key, [r])]
  | (k, es) :: rest =>
      if py_key_eq k key then (k, es ++ [r]) :: rest
      else (k, es) :: add_to_group key r rest
  end.

(** [for r in rules: grouped[r["src"]].append(r)] *)
Fixpoint group_rules (rules : list value) (groups : list (value * list value))
    : result (list (value * list value)) :=
  match rules with
  | [] => Ok groups
  | r :: rest =>
      src <- py_getitem r "src" ;;
      if hashable src then group_rules rest (add_to_group src r groups)
      else Exc (type_error ("unhashable type: '" ++ type_name src ++ "'")%string)
  end.

(** The egress rule built for one entry [e], evaluated left to right:
    [e["dest"]], [str(e["port"])], [e["proto"].upper()]. *)
Definition egress_rule_of (e : value) : result value :=
  dest <- py_getitem e "dest" ;;
  port <- py_getitem e "port" ;;
  proto <- py_getitem e "proto" ;;
  up <- py_upper proto ;;
  Ok (VDict [("toEndpoints", VList [VDict [("matchLabels", VDict [("app", dest)])]]);
             ("toPorts", VList [VDict [("ports",
                VList [VDict [("port", VStr (py_str port)); ("protocol", up)]])]])]).

(** The PolicySpec built for one group. *)
Definition spec_of (group : value * list value) : result value :=
  egress_rules <- map_res egress_rule_of (snd group) ;;
  Ok (VDict [("endpointSelector", VDict [("matchLabels", VDict [("app", fst group)])]);
             ("egress", VList egress_rules)]).

Definition header : list (string * value) :=
  [("apiVersion", VStr "cilium.io/v2");
   ("kind", VStr "CiliumNetworkPolicy");
   ("metadata", VDict [("name", VStr "generated-policy")])].

(** The document [convert_rules] dumps to [output_path], from the parsed
    content of [json_path].  (Reading the file, [yaml.dump], which only
    reorders keys, and the summary table are not modelled.) *)
Definition convert_rules (rules : value) : result value :=
  rs <- py_iter rules ;;
  grouped <- group_rules rs [] ;;
  specs <- map_res spec_of grouped ;;
  Ok (VDict (header ++ [("specs", VList specs)])).

End Converter.

(* ================================================================= *)
(** ** [src/src/visualizer.py]: the connection extractor *)

Module Visualizer.

Definition connection (src dest port protocol : value) : value :=
  VDict [("src", src); ("dest", dest); ("port", port); ("protocol", protocol);
         ("connection_type", VStr "egress")].

(** [if "specs" in cnp and cnp["specs"]: ... elif "spec" in cnp and cnp["spec"]: ...] *)
Definition key_truthy (cnp : value) (k : string) : result bool :=
  b <- py_contains cnp k ;;
  if b then v <- py_getitem cnp k ;; Ok (truthy v) else Ok false.

Definition select_specs (cnp : value) : result value :=
  c1 <- key_truthy cnp "specs" ;;
  if c1 then py_getitem cnp "specs"
  else c2 <- key_truthy cnp "spec" ;;
       if c2 then v <- py_getitem cnp "spec" ;; Ok (VList [v])
       else Ok (VList []).

(** [for port_spec in ports: ...] *)
Definition ext_port_spec (src dest port_spec : value) : result (list value) :=
  port <- py_get port_spec "port" (VStr "unknown") ;;
  protocol <- py_get port_spec "protocol" (VStr "TCP") ;;
  Ok [connection src dest port protocol].

(** [for port_rule in port_rules: ports = port_rule.get("ports", []); ...] *)
Definition ext_port_rule (src dest port_rule : value) : result (list value) :=
  ports <- py_get port_rule "ports" (VList []) ;;
  ps <- py_iter ports ;;
  concat_res (ext_port_spec src dest) ps.

(** The body of [for endpoint in dest_endpoints: ...]. *)
Definition ext_endpoint (src port_rules endpoint : value) : result (list value) :=
  ml <- py_get endpoint "matchLabels" (VDict []) ;;
  app <- py_get ml "app" VNone ;;
  let dest := py_or app (VStr "unknown-dest") in
  if truthy port_rules then
    prs <- py_iter port_rules ;;
    concat_res (ext_port_rule src dest) prs
  else Ok [connection src dest (VStr "any") (VStr "any")].

(** The body of [for egress in egress_rules: ...]. *)
Definition ext_egress (src egress : value) : result (list value) :=
  dest_endpoints <- py_get egress "toEndpoints" (VList []) ;;
  port_rules <- py_get egress "toPorts" (VList []) ;;
  eps <- py_iter dest_endpoints ;;
  concat_res (ext_endpoint src port_rules) eps.

(** The body of [for spec in specs: ...]. *)
Definition ext_spec (spec : value) : result (list value) :=
  if negb (truthy spec) then Ok []
  else
    es <- py_get spec "endpointSelector" (VDict []) ;;
    ml <- py_get es "matchLabels" (VDict []) ;;
    app <- py_get ml "app" VNone ;;
    let src := py_or app (VStr "unknown-source") in
    egress_rules <- py_get spec "egress" (VList []) ;;
    ers <- py_iter egress_rules ;;
    concat_res (ext_egress src) ers.

(** [_extract_connections(cnp)] *)
Definition _extract_connections (cnp : value) : result (list value) :=
  specs <- select_specs cnp ;;
  ss <- py_iter specs ;;
  concat_res ext_spec ss.

End Visualizer.

(* ================================================================= *)
(** ** [src/src/validator.py]: the schema and the Draft-7 validator *)

Module Schema.
Local Open Scope string_scope.

(** The Draft-7 keywords the schema uses, in a schema's dict order; a
    schema is its list of keywords.  ([$schema], [title] and [definitions]
    only annotate; a [$ref] is replaced by the definition it names.) *)
Inductive kw : Type :=
| KType (t : string)
| KEnum (vs : list string)
| KRequired (ks : list string)
| KProperties (ps : list (string * list kw))
| KAdditionalProperties (allowed : bool)
| KAdditionalSchema (s : list kw)
| KItems (s : list kw)
| KOneOf (ss : list (string * list kw))
| KPattern (pat : string) (matches : string -> bool)
| KMinimum (z : Z)
| KMaximum (z : Z).

Definition schema := list kw.

Inductive pelem : Type := PKey (k : string) | PIdx (i : nat).

(** [sorted(extras, key=str)]: insertion sort on code points. *)
Fixpoint insert_str (x : string) (l : list string) : list string :=
  match l with
  | [] => [x]
  | y :: r => if String.leb x y then x :: y :: r else y :: insert_str x r
  end.

Definition sort_strings (l : list string) : list string := fold_right insert_str [] l.

Record err : Type := mk_err { err_path : list pelem; err_msg : string }.

(** [validator.is_type] for the types the schema names (a bool is not an
    integer). *)
Definition is_type (v : value) (t : string) : bool :=
  match v with
  | VDict _ => String.eqb t "object"
  | VList _ => String.eqb t "array"
  | VStr _ => String.eqb t "string"
  | VInt _ => String.eqb t "integer"
  | _ => false
  end.

Fixpoint props_of (s : schema) : list string :=
  match s with
  | [] => []
  | KProperties ps :: _ => map fst ps
  | _ :: rest => props_of rest
  end.

Definition no_errors (l : list err) : bool := match l with [] => true | _ => false end.

(** The errors one keyword yields ([props]: the [properties] of its
    schema, which [additionalProperties] consults). *)
Fixpoint kw_errors (k : kw) (props : list string) (v : value) (path : list pelem)
    {struct k} : list err :=
  let errs_of := fun (s : schema) (x : value) (p : list pelem) =>
    (fix go (l : list kw) : list err :=
       match l with
       | [] => []
       | k' :: rest => app (kw_errors k' (props_of s) x p) (go rest)
       end) s in
  let here msg := [mk_err path msg] in
  match k with
  | KType t => if is_type v t then [] else here (repr v ++ " is not of type " ++ repr_str t)
  | KEnum vs =>
      if match v with VStr s => existsb (String.eqb s) vs | _ => false end then []
      else here (repr v ++ " is not one of [" ++ join ", " (map repr_str vs) ++ "]")
  | KRequired ks =>
      match v with
      | VDict kvs =>
          flat_map (fun k0 => match lookup k0 kvs with
                              | Some _ => []
                              | None => here (repr_str k0 ++ " is a required property")
                              end) ks
      | _ => []
      end
  | KProperties ps =>
      match v with
      | VDict kvs =>
          (fix go (l : list (string * schema)) : list err :=
             match l with
             | [] => []
             | (name, sub) :: rest =>
                 app (match lookup name kvs with
                      | Some x => errs_of sub x (app path [PKey name])
                      | None => []
                      end) (go rest)
             end) ps
      | _ => []
      end
  | KAdditionalProperties allowed =>
      match v with
      | VDict kvs =>
          let extras := sort_strings
                          (filter (fun k0 => negb (existsb (String.eqb k0) props)) (map fst kvs)) in
          if allowed then []
          else match extras with
               | [] => []
               | [x] => here ("Additional properties are not allowed (" ++ repr_str x
                              ++ " was unexpected)")
               | _ => here ("Additional properties are not allowed ("
                            ++ join ", " (map repr_str extras) ++ " were unexpected)")
               end
      | _ => []
      end
  | KAdditionalSchema sub =>
      match v with
      | VDict kvs =>
          flat_map (fun kv => if existsb (String.eqb (fst kv)) props then []
                              else errs_of sub (snd kv) (app path [PKey (fst kv)])) kvs
      | _ => []
      end
  | KItems sub =>
      match v with
      | VList l =>
          (fix go (i : nat) (l : list value) : list err :=
             match l with
             | [] => []
             | x :: rest => app (errs_of sub x (app path [PIdx i])) (go (S i) rest)
             end) 0 l
      | _ => []
      end
  | KOneOf ss =>
      (* the [repr] of every alternative [v] is valid under, in order *)
      let valid := (fix keep (l : list (string * schema)) : list string :=
                      match l with
                      | [] => []
                      | (r, s) :: rest =>
                          if no_errors (errs_of s v path) then r :: keep rest else keep rest
                      end) ss in
      match valid with
      | [] => here (repr v ++ " is not valid under any of the given schemas")
      | [_] => []
      | first_valid :: more_valid =>
          here (repr v ++ " is valid under each of "
                ++ join ", " (app more_valid [first_valid]))
      end
  | KPattern pat matches =>
      match v with
      | VStr s => if matches s then [] else here (repr v ++ " does not match " ++ repr_str pat)
      | _ => []
      end
  | KMinimum z =>
      match v with
      | VInt n => if Z.ltb n z then here (repr v ++ " is less than the minimum of " ++ dec_Z z)
                  else []
      | _ => []
      end
  | KMaximum z =>
      match v with
      | VInt n => if Z.ltb z n then here (repr v ++ " is greater than the maximum of " ++ dec_Z z)
                  else []
      | _ => []
      end
  end.

(** [validator.descend(instance, schema)]: all keywords, in order. *)
Fixpoint errs_in (s : schema) (props : list string) (v : value) (path : list pelem)
    : list err :=
  match s with
  | [] => []
  | k :: rest => app (kw_errors k props v path) (errs_in rest props v path)
  end.

Definition iter_errors (s : schema) (v : value) : list err := errs_in s (props_of s) v [].

(** [re.search("^[a-z0-9]([a-z0-9\-]*[a-z0-9])?$", s)]: [$] also matches
    before a final newline. *)
Definition alnum_lower (c : ascii) : bool :=
  let n := nat_of_ascii c in (Nat.leb 97 n && Nat.leb n 122) || (Nat.leb 48 n && Nat.leb n 57).

Definition name_char (c : ascii) : bool := alnum_lower c || Ascii.eqb c "-".

Definition full_name_match (cs : list ascii) : bool :=
  match cs with
  | [] => false
  | c :: rest => alnum_lower c && forallb name_char rest && alnum_lower (last rest c)
  end.

Definition name_pattern (s : string) : bool :=
  let cs := list_ascii_of_string s in
  full_name_match cs
  || (match rev cs with
      | c :: rest => Ascii.eqb c "010" && full_name_match (rev rest)
      | [] => false
      end).

End Schema.

(* ================================================================= *)
(** ** [src/src/validator.py]: the schema, results and suggestions *)

Module Validator.
Import Schema.
Local Open Scope string_scope.

Definition str_t : schema := [KType "string"].
Definition str_list : schema := [KType "array"; KItems str_t].

Definition LabelSelector : schema :=
  [KType "object";
   KProperties
     [("matchLabels", [KType "object"; KAdditionalSchema str_t]);
      ("matchExpressions",
         [KType "array";
          KItems [KType "object";
                  KRequired ["key"; "operator"];
                  KProperties
                    [("key", str_t);
                     ("operator", [KType "string"; KEnum ["In"; "NotIn"; "Exists"; "DoesNotExist"]]);
                     ("values", str_list)]]])];
   KAdditionalProperties false].

Definition selector_list : schema := [KType "array"; KItems LabelSelector].

Definition cidr_set : schema :=
  [KType "array";
   KItems [KType "object"; KRequired ["cidr"];
           KProperties [("cidr", str_t); ("except", str_list)]]].

Definition PortRule : schema :=
  [KType "object";
   KProperties
     [("ports",
         [KType "array";
          KItems [KType "object";
                  KRequired ["port"; "protocol"];
                  KProperties
                    [("port", [KOneOf [("{'type': 'string'}", str_t);
                                               ("{'type': 'integer', 'minimum': 1, 'maximum': 65535}",
                                                [KType "integer"; KMinimum 1; KMaximum 65535])]]);
                     ("protocol", [KType "string";
                                   KEnum ["TCP"; "UDP"; "SCTP"; "ICMP"; "ICMPv6"; "ANY"]]);
                     ("endPort", [KType "integer"; KMinimum 1; KMaximum 65535])]]]);
      ("rules",
         [KType "object";
          KProperties
            [("http", [KType "array";
                       KItems [KType "object";
                               KProperties [("method", str_t); ("path", str_t);
                                            ("host", str_t); ("headers", str_list)]]]);
             ("kafka", [KType "array";
                        KItems [KType "object";
                                KProperties [("apiKey", str_t); ("apiVersion", str_t);
                                             ("clientID", str_t); ("topic", str_t)]]])]])];
   KAdditionalProperties false].

Definition port_rules : schema := [KType "array"; KItems PortRule].

Definition IngressRule : schema :=
  [KType "object";
   KProperties [("fromEndpoints", selector_list); ("fromRequires", selector_list);
                ("fromCIDR", str_list); ("fromCIDRSet", cidr_set);
                ("fromEntities", str_list); ("toPorts", port_rules)];
   KAdditionalProperties false].

Definition EgressRule : schema :=
  [KType "object";
   KProperties [("toEndpoints", selector_list); ("toRequires", selector_list);
                ("toCIDR", str_list); ("toCIDRSet", cidr_set);
                ("toEntities", str_list);
                ("toServices",
                   [KType "array";
                    KItems [KType "object";
                            KProperties [("k8sService",
                                           [KType "object";
                                            KProperties [("serviceName", str_t);
                                                         ("namespace", str_t)]])]]]);
                ("toPorts", port_rules);
                ("toFQDNs",
                   [KType "array";
                    KItems [KType "object";
                            KProperties [("matchName", str_t); ("matchPattern", str_t)]]])];
   KAdditionalProperties false].

Definition IngressDenyRule : schema :=
  [KType "object";
   KProperties [("fromEndpoints", selector_list); ("fromCIDR", str_list);
                ("fromEntities", str_list); ("toPorts", port_rules)];
   KAdditionalProperties false].

Definition EgressDenyRule : schema :=
  [KType "object";
   KProperties [("toEndpoints", selector_list); ("toCIDR", str_list);
                ("toEntities", str_list); ("toPorts", port_rules)];
   KAdditionalProperties false].

Definition CiliumNetworkPolicySpec : schema :=
  [KType "object";
   KProperties [("endpointSelector", LabelSelector); ("nodeSelector", LabelSelector);
                ("ingress", [KType "array"; KItems IngressRule]);
                ("egress", [KType "array"; KItems EgressRule]);
                ("ingressDeny", [KType "array"; KItems IngressDenyRule]);
                ("egressDeny", [KType "array"; KItems EgressDenyRule])];
   KAdditionalProperties false].

Definition CILIUM_NETWORK_POLICY_SCHEMA : schema :=
  [KType "object";
   KRequired ["apiVersion"; "kind"; "metadata"];
   KProperties
     [("apiVersion", [KType "string"; KEnum ["cilium.io/v2"]]);
      ("kind", [KType "string"; KEnum ["CiliumNetworkPolicy"]]);
      ("metadata",
         [KType "object";
          KRequired ["name"];
          KProperties
            [("name", [KType "string";
                       KPattern "^[a-z0-9]([a-z0-9\-]*[a-z0-9])?$" name_pattern]);
             ("namespace", str_t);
             ("labels", [KType "object"; KAdditionalSchema str_t]);
             ("annotations", [KType "object"; KAdditionalSchema str_t])];
          KAdditionalProperties true]);
      ("spec", CiliumNetworkPolicySpec);
      ("specs", [KType "array"; KItems CiliumNetworkPolicySpec])];
   KOneOf [("{'required': ['spec']}", [KRequired ["spec"]]);
           ("{'required': ['specs']}", [KRequired ["specs"]])]].

(** [sorted(errors, key=lambda e: e.path)]: a stable sort on the paths,
    compared element-wise.  Two paths of one instance first differ at keys
    of the same container, so a key is never compared with an index. *)
Definition pelem_lt (a b : pelem) : bool :=
  match a, b with
  | PKey x, PKey y => match String.compare x y with Lt => true | _ => false end
  | PIdx i, PIdx j => Nat.ltb i j
  | _, _ => false
  end.

Fixpoint path_lt (a b : list pelem) : bool :=
  match a, b with
  | [], [] => false
  | [], _ :: _ => true
  | _ :: _, [] => false
  | x :: a', y :: b' =>
      if pelem_lt x y then true else if pelem_lt y x then false else path_lt a' b'
  end.

Fixpoint insert_sorted (e : err) (l : list err) : list err :=
  match l with
  | [] => [e]
  | x :: rest => if path_lt (err_path e) (err_path x) then e :: l else x :: insert_sorted e rest
  end.

Definition sort_errors (l : list err) : list err :=
  fold_left (fun acc e => insert_sorted e acc) l [].

Definition pelem_str (p : pelem) : string :=
  match p with PKey k => k | PIdx i => dec_N (N.of_nat i) end.

Definition render (e : err) : string :=
  "Schema validation error at '"
  ++ match err_path e with [] => "root" | p => join " -> " (map pelem_str p) end
  ++ "': " ++ err_msg e.

(** [validate_cilium_schema(data)] *)
Definition validate_cilium_schema (data : value) : list string :=
  map render (sort_errors (iter_errors CILIUM_NETWORK_POLICY_SCHEMA data)).

(** [class ValidationResult] *)
Record ValidationResult : Type := mkResult {
  is_valid : bool;
  yaml_syntax_errors : list string;
  yaml_lint_warnings : list value;
  schema_errors : list string;
  suggestions : list string }.

(** [ValidationResult()] *)
Definition new_result : ValidationResult := mkResult true [] [] [] [].

Definition add_yaml_syntax_error (r : ValidationResult) (error : string) : ValidationResult :=
  mkResult false (app (yaml_syntax_errors r) [error]) (yaml_lint_warnings r)
    (schema_errors r) (suggestions r).

Definition add_yaml_lint_warning (r : ValidationResult) (warning : value) : ValidationResult :=
  mkResult (is_valid r) (yaml_syntax_errors r) (app (yaml_lint_warnings r) [warning])
    (schema_errors r) (suggestions r).

Definition add_schema_error (r : ValidationResult) (error : string) : ValidationResult :=
  mkResult false (yaml_syntax_errors r) (yaml_lint_warnings r)
    (app (schema_errors r) [error]) (suggestions r).

Definition add_suggestion (r : ValidationResult) (suggestion : string) : ValidationResult :=
  mkResult (is_valid r) (yaml_syntax_errors r) (yaml_lint_warnings r)
    (schema_errors r) (app (suggestions r) [suggestion]).

Definition both_msg : string :=
  "Use either 'spec' (single policy) or 'specs' (multiple policies), not both".

(** The body of [for i, spec in enumerate(specs)]. *)
Definition spec_suggestions (has_specs : bool) (i : nat) (spec : value) : result (list string) :=
  if negb (truthy spec) then Ok [] else
  let spec_name := if has_specs then "spec[" ++ dec_N (N.of_nat i) ++ "]" else "spec" in
  has_in <- py_contains spec "ingress" ;;
  s_in <- (if has_in then
             x <- py_getitem spec "ingress" ;;
             Ok (if truthy x then []
                 else [spec_name ++ ": Empty ingress rules - consider removing or adding rules"])
           else Ok []) ;;
  has_eg <- py_contains spec "egress" ;;
  s_eg <- (if has_eg then
             x <- py_getitem spec "egress" ;;
             Ok (if truthy x then []
                 else [spec_name ++ ": Empty egress rules - consider removing or adding rules"])
           else Ok []) ;;
  has_sel <- py_contains spec "endpointSelector" ;;
  let s_sel := if has_sel then []
               else [spec_name ++ ": Missing endpointSelector - policies should target specific endpoints"] in
  endpoint_selector <- py_get spec "endpointSelector" (VDict []) ;;
  ml <- py_get endpoint_selector "matchLabels" VNone ;;
  broad <- (if truthy ml then Ok false
            else me <- py_get endpoint_selector "matchExpressions" VNone ;;
                 Ok (negb (truthy me))) ;;
  let s_broad := if broad
                 then [spec_name ++ ": Empty endpointSelector targets all pods - consider being more specific"]
                 else [] in
  Ok (app s_in (app s_eg (app s_sel s_broad))).

Fixpoint enumerate_suggestions (has_specs : bool) (i : nat) (specs : list value)
    : result (list string) :=
  match specs with
  | [] => Ok []
  | spec :: rest =>
      ss <- spec_suggestions has_specs i spec ;;
      rs <- enumerate_suggestions has_specs (S i) rest ;;
      Ok (app ss rs)
  end.

(** [generate_suggestions(data, validation_result)]; the result object
    is not read. *)
Definition generate_suggestions (data : value) : result (list string) :=
  match data with
  | VDict kvs =>
      let get k := match lookup k kvs with Some v => v | None => VNone end in
      if eq_str (get "kind") "CiliumNetworkPolicy" then
        let has_specs := match lookup "specs" kvs with Some _ => true | None => false end in
        let has_spec := match lookup "spec" kvs with Some _ => true | None => false end in
        let s_both := if has_specs && has_spec then [both_msg] else [] in
        let specs := if truthy (get "specs") || truthy (get "spec")
                     then (if has_specs then get "specs" else VList [get "spec"])
                     else VList [] in
        items <- py_iter specs ;;
        rest <- enumerate_suggestions has_specs 0 items ;;
        Ok (app s_both rest)
      else Ok []
  | _ => Ok []
  end.

(** [validate_policy(file_path)].  The file system is the environment:
    [file_exists] is [Path(file_path).exists()], [syntax] is what
    [validate_yaml_syntax] returns (the parsed document, [None] as
    [VNone]) and [lint_warnings] what [lint_yaml_style] returns.  The
    console output is left out. *)
Definition validate_policy (file_path : string) (file_exists : bool)
    (syntax : bool * list string * value) (lint_warnings : list value)
    : result ValidationResult :=
  let result := new_result in
  if negb file_exists then Ok (add_yaml_syntax_error result ("File not found: " ++ file_path))
  else
  let '(syntax_valid, syntax_errors, parsed_data) := syntax in
  let result := fold_left add_yaml_syntax_error syntax_errors result in
  if negb syntax_valid then Ok result
  else
  let result := fold_left add_yaml_lint_warning lint_warnings result in
  if truthy parsed_data then
    let result := fold_left add_schema_error (validate_cilium_schema parsed_data) result in
    sugg <- generate_suggestions parsed_data ;;
    Ok (fold_left add_suggestion sugg result)
  else Ok result.

End Validator.

(* ================================================================= *)
(** ** [src/src/tester.py]: the rule list of the tests *)

Module TesterRules.

(** [{"src": src, "dest": dest, "port": port}] *)
Definition rule_of (src dest port : value) : value :=
  VDict [("src", src); ("dest", dest); ("port", port)].

(** [for p in tp.get("ports", []): ports.append(p.get("port"))] *)
Definition port_values (tp : value) : result (list value) :=
  ps <- py_get tp "ports" (VList []) ;;
  items <- py_iter ps ;;
  map_res (fun p => py_get p "port" VNone) items.

(** The body of [for d in dests: ...]. *)
Definition dest_rules (src : value) (ports : list value) (d : value) : result (list value) :=
  ml <- py_get d "matchLabels" (VDict []) ;;
  app <- py_get ml "app" VNone ;;
  let dest := py_or app (VStr "unknown") in
  match ports with
  | [] => Ok [rule_of src dest (VStr "any")]
  | _ => Ok (map (rule_of src dest) ports)
  end.

(** The body of [for e in egress: ...]. *)
Definition egress_rules_of (src e : value) : result (list value) :=
  dests <- py_get e "toEndpoints" (VList []) ;;
  to_ports <- py_get e "toPorts" (VList []) ;;
  tps <- py_iter to_ports ;;
  ports <- concat_res port_values tps ;;
  ds <- py_iter dests ;;
  concat_res (dest_rules src ports) ds.

(** The body of [for s in specs: ...]. *)
Definition spec_rules (s : value) : result (list value) :=
  es <- py_get s "endpointSelector" (VDict []) ;;
  ml <- py_get es "matchLabels" (VDict []) ;;
  app <- py_get ml "app" VNone ;;
  let src := py_or app (VStr "unknown") in
  egress <- py_get s "egress" (VList []) ;;
  ers <- py_iter egress ;;
  concat_res (egress_rules_of src) ers.

(** [_extract_rules(cnp)]: the specs are selected by the same expression
    as in [_simulate_policy_enforcement]. *)
Definition _extract_rules (cnp : value) : result (list value) :=
  specs <- Tester.select_specs cnp ;;
  ss <- py_iter specs ;;
  concat_res spec_rules ss.

End TesterRules.

(* ================================================================= *)
(** ** [src/src/tester.py]: the syntax check of real mode *)

Module TesterSyntax.
Local Open Scope string_scope.

(** The dict [_validate_policy_syntax] returns: [valid], [error] ([None]
    as [None]) and [warnings]. *)
Record syntax_result : Type := mkSyntax {
  sr_valid : bool;
  sr_error : option string;
  sr_warnings : list string }.

Definition syntax_failure (msg : string) : syntax_result := mkSyntax false (Some msg) [].

Definition both_warning : string := "Both 'specs' and 'spec' found. 'spec' will be ignored.".

(** The body of the [try] block, after [_read_policy]. *)
Definition check_policy (cnp : value) : result syntax_result :=
  missing_fields <- concat_res (fun field => b <- py_contains cnp field ;;
                                              Ok (if b then [] else [field]))
                      ["apiVersion"; "kind"; "metadata"] ;;
  match missing_fields with
  | _ :: _ => Ok (syntax_failure ("Missing required fields: " ++ join ", " missing_fields))
  | [] =>
      api <- py_get cnp "apiVersion" VNone ;;
      if negb (eq_str api "cilium.io/v2") then
        Ok (syntax_failure ("Invalid apiVersion: " ++ py_str api ++ ". Expected 'cilium.io/v2'"))
      else
      kind <- py_get cnp "kind" VNone ;;
      if negb (eq_str kind "CiliumNetworkPolicy") then
        Ok (syntax_failure ("Invalid kind: " ++ py_str kind ++ ". Expected 'CiliumNetworkPolicy'"))
      else
      a <- py_get cnp "specs" VNone ;;
      specs <- (if truthy a then Ok a else py_get cnp "spec" VNone) ;;
      if negb (truthy specs) then
        Ok (syntax_failure "No policy specifications found. Expected 'specs' or 'spec' field")
      else
      has_specs <- py_contains cnp "specs" ;;
      both <- (if has_specs then py_contains cnp "spec" else Ok false) ;;
      Ok (mkSyntax true None (if both then [both_warning] else []))
  end.

(** [_validate_policy_syntax(yaml_path)], from what [_read_policy] gives
    ([Exc] when it raises); any exception becomes the error [str(e)]. *)
Definition _validate_policy_syntax (read : result value) : syntax_result :=
  match (cnp <- read ;; check_policy cnp) with
  | Ok r => r
  | Exc e => syntax_failure (exn_msg e)
  end.

End TesterSyntax.

(* ================================================================= *)
(** ** [src/src/visualizer.py]: the test-result overlay *)

Module Overlay.

Definition key := (value * value * string)%type.

(** [(result.get("src"), result.get("dest"), str(result.get("port", "")))]
    in [_load_test_results]. *)
Definition result_key (r : value) : result key :=
  s <- py_get r "src" VNone ;;
  d <- py_get r "dest" VNone ;;
  p <- py_get r "port" (VStr EmptyString) ;;
  Ok (s, d, py_str p).

(** [(conn["src"], conn["dest"], str(conn["port"]))] in [visualize_policy]. *)
Definition conn_key (conn : value) : result key :=
  s <- py_getitem conn "src" ;;
  d <- py_getitem conn "dest" ;;
  p <- py_getitem conn "port" ;;
  Ok (s, d, py_str p).

End Overlay.

(* ================================================================= *)
(** ** Document shapes

    The shape the schema of [validator.py] gives the parts of a document
    the simulator and the extractor read: a key that is present holds a
    value of the schema's type (a missing key is always fine). *)

Module Shape.

Definition field_ok (v : value) (k : string) (f : value -> bool) : bool :=
  match v with
  | VDict kvs => match lookup k kvs with None => true | Some x => f x end
  | _ => false
  end.

Definition list_of (f : value -> bool) (v : value) : bool :=
  match v with VList l => forallb f l | _ => false end.

(** LabelSelector *)
Definition wf_selector (sel : value) : bool := field_ok sel "matchLabels" is_dict.

(** PortRule *)
Definition wf_port_rule (pr : value) : bool := field_ok pr "ports" (list_of is_dict).

(** EgressRule *)
Definition wf_egress (rule : value) : bool :=
  field_ok rule "toEndpoints" (list_of wf_selector)
  && field_ok rule "toPorts" (list_of wf_port_rule).

(** CiliumNetworkPolicySpec *)
Definition wf_spec (spec : value) : bool :=
  field_ok spec "endpointSelector" wf_selector
  && field_ok spec "egress" (list_of wf_egress).

(** A document as [_extract_connections] selects its specs: a list whose
    truthy items are well-shaped PolicySpecs. *)
Definition wf_ext_doc (cnp : value) : bool :=
  match Visualizer.select_specs cnp with
  | Ok (VList l) => forallb (fun spec => negb (truthy spec) || wf_spec spec) l
  | _ => false
  end.

End Shape.

(* ================================================================= *)
(** ** Matching, in the words of the specification *)

Module PolicyMatch.

(** The list a key holds ([[]] when absent, as with [.get(k, [])]). *)
Definition list_field (v : value) (k : string) : list value :=
  match dict_lookup v k with Some (VList l) => l | _ => [] end.

(** [selector.matchLabels.app], when present. *)
Definition selector_app (sel : value) : option value :=
  match dict_lookup sel "matchLabels" with
  | Some ml => dict_lookup ml "app"
  | None => None
  end.

(** [spec.endpointSelector.matchLabels.app], when present. *)
Definition spec_app (spec : value) : option value :=
  match dict_lookup spec "endpointSelector" with
  | Some es => selector_app es
  | None => None
  end.

(** The entries [toPorts[*].ports[*]] of a rule. *)
Definition listed_ports (rule : value) : list value :=
  flat_map (fun pr => list_field pr "ports") (list_field rule "toPorts").

(** A rule admits a port: it has no [toPorts], or some listed port entry
    has that port, or is scanned while the candidate is ["any"]. *)
Definition rule_admits (rule : value) (port : string) : Prop :=
  list_field rule "toPorts" = []
  \/ exists ps, In ps (listed_ports rule)
           /\ (dict_lookup ps "port" = Some (VStr port) \/ port = "any").

(** Some PolicySpec / egress-rule pair matches [(src, dest, port)]. *)
Definition pair_matches (specs : list value) (src dest port : string) : Prop :=
  exists spec, In spec specs /\ spec_app spec = Some (VStr src) /\
  exists rule, In rule (list_field spec "egress") /\
    (exists ep, In ep (list_field rule "toEndpoints")
                /\ selector_app ep = Some (VStr dest))
    /\ rule_admits rule port.

(** The value [.get] returns for an optional lookup. *)
Definition opt_val (o : option value) : value :=
  match o with Some v => v | None => VNone end.

End PolicyMatch.

(** What [convert_rules] needs of a flat rule: a mapping with [src]
    (hashable), [dest], [port] and a string [proto]. *)
Module ConverterSpec.

Definition rule_wellformed (r : value) : bool :=
  match r with
  | VDict kvs =>
      match lookup "src" kvs, lookup "dest" kvs, lookup "port" kvs, lookup "proto" kvs with
      | Some s, Some _, Some _, Some (VStr _) => hashable s
      | _, _, _, _ => false
      end
  | _ => false
  end.

(** The exceptions Python raises while building the document. *)
Definition builtin_error (e : exn) : Prop :=
  In (exn_cls e) ["KeyError"; "TypeError"; "AttributeError"].

(** What [convert_rules] raises for a rule, by cause: [r[k]] on a
    mapping without [k] raises [KeyError] with the key's repr as its
    message; [r["src"]] on a non-mapping, or an unhashable [src] as a
    [defaultdict] key, raises [TypeError]; [.upper()] on a non-string
    [proto] raises [AttributeError]. *)
Definition rule_error (r : value) (e : exn) : Prop :=
  match r with
  | VDict kvs =>
      (exists k, In k ["src"; "dest"; "port"; "proto"] /\ lookup k kvs = None
                 /\ e = PyExc "KeyError" (repr_str k))
      \/ (exists s, lookup "src" kvs = Some s /\ hashable s = false /\ exn_cls e = "TypeError")
      \/ (exists p, lookup "proto" kvs = Some p /\ (forall q, p <> VStr q)
                   /\ e = attr_error p "upper")
  | _ => exn_cls e = "TypeError"
  end.

End ConverterSpec.

(* ================================================================= *)
(** ** Concrete documents *)

(** The fields of a flat firewall rule as the converted policy carries
    them: [e["dest"]], [str(e["port"])] and [e["proto"].upper()]. *)
Module ConvertedView.
Import PolicyMatch.

Definition rule_dest (e : value) : value := opt_val (dict_lookup e "dest").

Definition rule_port (e : value) : value := VStr (py_str (opt_val (dict_lookup e "port"))).

Definition rule_proto (e : value) : value :=
  match dict_lookup e "proto" with Some (VStr q) => VStr (upper q) | _ => VNone end.

End ConvertedView.

(** The schema's view of a converted policy. *)
Module ConvertedSchema.
Import Schema PolicyMatch ConvertedView.

(** The loop of [items] over a list, from index [i], as a function of
    its own. *)
Fixpoint items_errs (sub : schema) (p : list pelem) (i : nat) (l : list value) : list err :=
  match l with
  | [] => []
  | x :: rest => app (errs_in sub (props_of sub) x (app p [PIdx i])) (items_errs sub p (S i) rest)
  end.

(** The [enum] of [protocol] in the schema's PortRule. *)
Definition protocols : list string := ["TCP"; "UDP"; "SCTP"; "ICMP"; "ICMPv6"; "ANY"].

(** The egress rule [convert_rules] builds, from its three fields. *)
Definition egress_value (d : value) (pt : string) (up : value) : value :=
  VDict [("toEndpoints", VList [VDict [("matchLabels", VDict [("app", d)])]]);
         ("toPorts", VList [VDict [("ports",
            VList [VDict [("port", VStr pt); ("protocol", up)]])]])].

(** The PolicySpec [convert_rules] builds for a group key and its rules. *)
Definition spec_value (k : value) (ers : list value) : value :=
  VDict [("endpointSelector", VDict [("matchLabels", VDict [("app", k)])]);
         ("egress", VList ers)].

(** [proto.upper()] is one of the schema's protocols. *)
Definition proto_listed (r : value) : bool :=
  match rule_proto r with VStr s => existsb (String.eqb s) protocols | _ => false end.

(** What the schema asks of a flat rule once converted: a string [dest]
    and a listed protocol ... *)
Definition egress_ok (e : value) : Prop :=
  is_type (rule_dest e) "string" = true /\ proto_listed e = true.

(** ... and a string [src]. *)
Definition rule_schema_ok (r : value) : Prop :=
  is_type (opt_val (dict_lookup r "src")) "string" = true /\ egress_ok r.

Definition group_ok (g : value * list value) : Prop :=
  is_type (fst g) "string" = true /\ Forall egress_ok (snd g).

End ConvertedSchema.

(** How many rules [_extract_rules] lists for a rule and for a spec. *)
Module RuleCount.
Import PolicyMatch.

(** One rule per [toEndpoints] entry and listed port, or per entry with
    the port ["any"] when no port is listed. *)
Definition egress_count (e : value) : nat :=
  length (list_field e "toEndpoints") * Nat.max 1 (length (listed_ports e)).

Definition spec_count (s : value) : nat := list_sum (map egress_count (list_field s "egress")).

End RuleCount.

(** The label [generate_suggestions] puts before each spec's messages:
    [f"spec[{i}]" if has_specs else "spec"]. *)
Module SuggestionNames.
Import Py.

Definition spec_name (hs : bool) (i : nat) : string :=
  if hs then ("spec[" ++ dec_N (N.of_nat i) ++ "]")%string else "spec".

End SuggestionNames.

Module Examples.

Definition app_selector (app : string) : value :=
  VDict [("matchLabels", VDict [("app", VStr app)])].

(** A schema-valid policy written with a single [spec] mapping:
    frontend may reach backend on every port. *)
Definition single_spec_doc : value :=
  VDict [("apiVersion", VStr "cilium.io/v2");
         ("kind", VStr "CiliumNetworkPolicy");
         ("metadata", VDict [("name", VStr "frontend-policy")]);
         ("spec", VDict [("endpointSelector", app_selector "frontend");
                         ("egress", VList [VDict [("toEndpoints",
                                                   VList [app_selector "backend"])]])])].

(** A policy whose only port rule carries L7 rules but lists no ports. *)
Definition l7_only_rule : value :=
  VDict [("toEndpoints", VList [app_selector "backend"]);
         ("toPorts", VList [VDict [("rules", VDict [("http",
                                     VList [VDict [("method", VStr "GET")]])])]])].

Definition l7_only_spec : value :=
  VDict [("endpointSelector", app_selector "frontend");
         ("egress", VList [l7_only_rule])].

Definition l7_only_doc : value :=
  VDict [("apiVersion", VStr "cilium.io/v2");
         ("kind", VStr "CiliumNetworkPolicy");
         ("metadata", VDict [("name", VStr "l7-policy")]);
         ("specs", VList [l7_only_spec])].

(** Two specs: A -> B on 80/TCP and B -> C on 443/TCP. *)
Definition port_rule (port proto : string) : value :=
  VDict [("ports", VList [VDict [("port", VStr port); ("protocol", VStr proto)]])].

Definition two_spec_specs : list value :=
  [VDict [("endpointSelector", app_selector "A");
          ("egress", VList [VDict [("toEndpoints", VList [app_selector "B"]);
                                   ("toPorts", VList [port_rule "80" "TCP"])]])];
   VDict [("endpointSelector", app_selector "B");
          ("egress", VList [VDict [("toEndpoints", VList [app_selector "C"]);
                                   ("toPorts", VList [port_rule "443" "TCP"])]])]].

Definition two_spec_doc : value :=
  VDict [("apiVersion", VStr "cilium.io/v2");
         ("kind", VStr "CiliumNetworkPolicy");
         ("metadata", VDict [("name", VStr "abc")]);
         ("specs", VList two_spec_specs)].

(** The flat rule list of the round-trip property. *)
Definition frontend_rules : value :=
  VList [VDict [("src", VStr "frontend"); ("dest", VStr "backend");
                ("port", VInt 80); ("proto", VStr "tcp")]].

(** A flat rule list whose second rule has no [src]. *)
Definition rules_missing_src : value :=
  VList [VDict [("src", VStr "frontend"); ("dest", VStr "backend");
                ("port", VInt 80); ("proto", VStr "tcp")];
         VDict [("dest", VStr "db"); ("port", VInt 5432); ("proto", VStr "tcp")]].

(** A partial document: no labels on the source, none on one destination. *)
Definition partial_spec : value :=
  VDict [("egress", VList [VDict [("toEndpoints", VList [VDict []; app_selector "db"])]])].

Definition partial_doc : value :=
  VDict [("apiVersion", VStr "cilium.io/v2");
         ("kind", VStr "CiliumNetworkPolicy");
         ("metadata", VDict [("name", VStr "partial")]);
         ("specs", VList [partial_spec])].

(** The items of a policy that has both a [spec] mapping and a [specs]
    list, and is valid against every other part of the schema. *)
Definition both_keys_kvs : list (string * value) :=
  [("apiVersion", VStr "cilium.io/v2");
   ("kind", VStr "CiliumNetworkPolicy");
   ("metadata", VDict [("name", VStr "frontend-policy")]);
   ("spec", VDict [("endpointSelector", app_selector "frontend")]);
   ("specs", VList [VDict [("endpointSelector", app_selector "frontend")]])].

Definition both_keys_doc : value := VDict both_keys_kvs.

(** A Kubernetes NetworkPolicy with an empty egress list and no selector. *)
Definition k8s_doc : value :=
  VDict [("apiVersion", VStr "networking.k8s.io/v1");
         ("kind", VStr "NetworkPolicy");
         ("spec", VDict [("egress", VList [])])].

(** Three flat rules; the third shares the first one's [src], so the
    converter places it before the second. *)
Definition grouping_rules : list value :=
  [VDict [("src", VStr "frontend"); ("dest", VStr "backend");
          ("port", VInt 80); ("proto", VStr "tcp")];
   VDict [("src", VStr "api"); ("dest", VStr "db");
          ("port", VInt 5432); ("proto", VStr "tcp")];
   VDict [("src", VStr "frontend"); ("dest", VStr "cache");
          ("port", VInt 6379); ("proto", VStr "udp")]].

(** Two flat rules, the second with protocol [icmpv6]. *)
Definition icmpv6_rules : list value :=
  [VDict [("src", VStr "frontend"); ("dest", VStr "backend");
          ("port", VInt 80); ("proto", VStr "tcp")];
   VDict [("src", VStr "frontend"); ("dest", VStr "dns");
          ("port", VInt 53); ("proto", VStr "icmpv6")]].

(** Two flat rules, the second without [dest]. *)
Definition dest_missing_rules : list value :=
  [VDict [("src", VStr "frontend"); ("dest", VStr "backend");
          ("port", VInt 80); ("proto", VStr "tcp")];
   VDict [("src", VStr "api"); ("port", VInt 5432); ("proto", VStr "tcp")]].

(** One warning as [lint_yaml_style] reports it. *)
Definition lint_warning : value :=
  VDict [("line", VInt 3); ("column", VInt 1); ("level", VStr "warning");
         ("message", VStr "trailing spaces"); ("rule", VStr "trailing-spaces")].

(** A policy with both keys whose [spec] and [specs] entries differ:
    the [spec] mapping has no selector, the [specs] entry an empty
    egress list. *)
Definition both_keys_diff_kvs : list (string * value) :=
  [("apiVersion", VStr "cilium.io/v2");
   ("kind", VStr "CiliumNetworkPolicy");
   ("metadata", VDict [("name", VStr "frontend-policy")]);
   ("spec", VDict [("egress", VList [])]);
   ("specs", VList [VDict [("endpointSelector", app_selector "frontend");
                           ("egress", VList [])]])].

End Examples.

(* ================================================================= *)
(** * Proofs *)

(** ** The simulator *)

Module SimulatorFacts.
Import Tester Shape PolicyMatch.

Definition allowed_opt (o : outcome) : Prop :=
  match o with Some r => fst r = ALLOWED | None => True end.

Lemma py_get_list_field (v : value) (k : string) (f : value -> bool) :
  field_ok v k (list_of f) = true ->
  py_get v k (VList []) = Ok (VList (list_field v k))
  /\ forallb f (list_field v k) = true.
Proof.
  destruct v as [| | | | |kvs]; simpl; try discriminate.
  unfold list_field; simpl.
  destruct (lookup k kvs) as [[| | | | l |]|]; simpl; try discriminate; auto.
Qed.

Lemma py_get_selector_app (sel : value) (s : string) :
  wf_selector sel = true ->
  exists ml a, py_get sel "matchLabels" (VDict []) = Ok ml
    /\ py_get ml "app" VNone = Ok a
    /\ (eq_str a s = true <-> selector_app sel = Some (VStr s)).
Proof.
  unfold wf_selector, field_ok, selector_app.
  destruct sel as [| | | | |kvs]; simpl; try discriminate.
  destruct (lookup "matchLabels" kvs) as [[| | | | |mkvs]|] eqn:E;
    simpl; try discriminate; intros _.
  - exists (VDict mkvs).
    exists (match lookup "app" mkvs with Some v => v | None => VNone end).
    split; [reflexivity | split; [reflexivity |]].
    destruct (lookup "app" mkvs) as [[| | | t | |]|]; simpl;
      split; intro H; try discriminate; try congruence.
    + apply String.eqb_eq in H; subst; reflexivity.
    + inversion H; subst; apply String.eqb_refl.
  - exists (VDict []), VNone.
    split; [reflexivity | split; [reflexivity |]].
    simpl; split; intro H; discriminate.
Qed.

Lemma eq_str_opt (o : option value) (s : string) :
  eq_str (match o with Some v => v | None => VNone end) s = true
  <-> o = Some (VStr s).
Proof.
  destruct o as [[| | | t | |]|]; simpl; split; intro H; try discriminate.
  - apply String.eqb_eq in H; subst; reflexivity.
  - inversion H; subst; apply String.eqb_refl.
Qed.

Lemma sim_port_specs_ok (port : string) (ps : list value) :
  forallb is_dict ps = true ->
  exists b, sim_port_specs port ps = Ok b
    /\ (b = true <-> exists p, In p ps
          /\ (dict_lookup p "port" = Some (VStr port) \/ port = "any")).
Proof.
  induction ps as [|p ps IH]; simpl; intros H.
  - exists false; split; [reflexivity|].
    split; [discriminate | intros (q & [] & _)].
  - apply andb_prop in H as [Hp Hps].
    destruct p as [| | | | |kvs]; try discriminate; simpl.
    destruct (eq_str (match lookup "port" kvs with Some v => v | None => VNone end) port
              || String.eqb port "any") eqn:E.
    + exists true; split; [reflexivity|]; split; [intros _ | auto].
      exists (VDict kvs); split; [left; reflexivity|].
      apply orb_true_iff in E as [E|E].
      * left; apply eq_str_opt; exact E.
      * right; apply String.eqb_eq; exact E.
    + destruct (IH Hps) as (b & Hb & Hiff).
      exists b; split; [exact Hb|]; rewrite Hiff; split.
      * intros (q & Hq & Hr); exists q; auto.
      * intros (q & [<-|Hq] & Hr); [|exists q; auto].
        exfalso; apply orb_false_iff in E as [E1 E2]; simpl in Hr.
        destruct Hr as [Hr|Hr].
        -- apply eq_str_opt in Hr; congruence.
        -- apply String.eqb_eq in Hr; congruence.
Qed.

Lemma sim_port_rules_ok (port : string) (prs : list value) :
  forallb wf_port_rule prs = true ->
  exists b, sim_port_rules port prs = Ok b
    /\ (b = true <-> exists p, In p (flat_map (fun pr => list_field pr "ports") prs)
          /\ (dict_lookup p "port" = Some (VStr port) \/ port = "any")).
Proof.
  induction prs as [|pr prs IH]; simpl; intros H.
  - exists false; split; [reflexivity|].
    split; [discriminate | intros (q & [] & _)].
  - apply andb_prop in H as [Hpr Hprs].
    destruct (py_get_list_field pr "ports" is_dict Hpr) as [Hg Hd].
    rewrite Hg; simpl.
    destruct (sim_port_specs_ok port _ Hd) as (b1 & Hb1 & Hiff1).
    rewrite Hb1; simpl.
    destruct b1.
    + exists true; split; [reflexivity|]; split; [intros _ | auto].
      destruct (proj1 Hiff1 eq_refl) as (q & Hq & Hr).
      exists q; split; [apply in_or_app; left; exact Hq | exact Hr].
    + destruct (IH Hprs) as (b & Hb & Hiff).
      exists b; split; [exact Hb|]; rewrite Hiff; split.
      * intros (q & Hq & Hr); exists q; split; [apply in_or_app; right|]; auto.
      * intros (q & Hq & Hr); apply in_app_or in Hq as [Hq|Hq].
        -- assert (false = true) by (apply Hiff1; exists q; auto); discriminate.
        -- exists q; auto.
Qed.

Lemma py_get_to_ports (egress : value) :
  wf_egress egress = true ->
  py_get egress "toPorts" (VList []) = Ok (VList (list_field egress "toPorts"))
  /\ forallb wf_port_rule (list_field egress "toPorts") = true.
Proof.
  unfold wf_egress; intros H; apply andb_prop in H as [_ H].
  apply py_get_list_field; exact H.
Qed.

Lemma py_get_to_endpoints (egress : value) :
  wf_egress egress = true ->
  py_get egress "toEndpoints" (VList []) = Ok (VList (list_field egress "toEndpoints"))
  /\ forallb wf_selector (list_field egress "toEndpoints") = true.
Proof.
  unfold wf_egress; intros H; apply andb_prop in H as [H _].
  apply py_get_list_field; exact H.
Qed.

Lemma sim_endpoints_ok (dest port : string) (egress : value) (eps : list value) :
  wf_egress egress = true ->
  forallb wf_selector eps = true ->
  exists o, sim_endpoints dest port egress eps = Ok o /\ allowed_opt o
    /\ (o <> None <-> (exists ep, In ep eps /\ selector_app ep = Some (VStr dest))
                      /\ rule_admits egress port).
Proof.
  intros Hwf.
  destruct (py_get_to_ports egress Hwf) as [Htp Htpwf].
  induction eps as [|ep eps IH]; simpl; intros Heps.
  - exists None; split; [reflexivity|]; split; [exact I|].
    split; [intros H; exfalso; apply H; reflexivity | intros [(q & [] & _) _]].
  - apply andb_prop in Heps as [Hep Heps].
    destruct (py_get_selector_app ep dest Hep) as (ml & a & Hml & Ha & Hiffa).
    rewrite Hml; simpl; rewrite Ha; simpl.
    destruct (IH Heps) as (o' & Ho' & Hallow' & Hiff').
    destruct (eq_str a dest) eqn:Ea.
    + rewrite Htp; simpl.
      destruct (list_field egress "toPorts") as [|tp tps] eqn:Etp;
        cbn -[sim_port_rules sim_endpoints].
      * exists (Some (ALLOWED, "Policy explicitly allows connection")).
        split; [reflexivity|]; split; [reflexivity|].
        split; [intros _ | intros _; discriminate].
        split; [exists ep; split; [left; reflexivity | apply Hiffa; reflexivity]|].
        left; exact Etp.
      * destruct (sim_port_rules_ok port (tp :: tps) Htpwf) as (b & Hb & Hiffb).
        rewrite Hb; simpl.
        assert (Hadm : rule_admits egress port <-> b = true).
        { unfold rule_admits, listed_ports; rewrite Etp, Hiffb.
          split; [intros [H|H]; [discriminate | exact H] | intros H; right; exact H]. }
        destruct b.
        -- exists (Some (ALLOWED, ("Policy allows connection on port " ++ port)%string)).
           split; [reflexivity|]; split; [reflexivity|].
           split; [intros _ | intros _; discriminate].
           split; [exists ep; split; [left; reflexivity | apply Hiffa; reflexivity]|].
           apply Hadm; reflexivity.
        -- exists o'; split; [exact Ho'|]; split; [exact Hallow'|].
           rewrite Hiff'; split.
           ++ intros [(q & Hq & Hr) H2]; split; [exists q; split; [right|]|]; auto.
           ++ intros [_ H2]; apply Hadm in H2; discriminate.
    + exists o'; split; [exact Ho'|]; split; [exact Hallow'|].
      rewrite Hiff'; split.
      * intros [(q & Hq & Hr) H2]; split; [exists q; split; [right|]|]; auto.
      * intros [(q & [<-|Hq] & Hr) H2].
        -- apply Hiffa in Hr; congruence.
        -- split; [exists q|]; auto.
Qed.

Lemma sim_egress_ok (dest port : string) (rules : list value) :
  forallb wf_egress rules = true ->
  exists o, sim_egress dest port rules = Ok o /\ allowed_opt o
    /\ (o <> None <-> exists rule, In rule rules
          /\ (exists ep, In ep (list_field rule "toEndpoints")
                          /\ selector_app ep = Some (VStr dest))
          /\ rule_admits rule port).
Proof.
  induction rules as [|rule rules IH]; simpl; intros H.
  - exists None; split; [reflexivity|]; split; [exact I|].
    split; [intros H'; exfalso; apply H'; reflexivity | intros (q & [] & _)].
  - apply andb_prop in H as [Hr Hrs].
    destruct (py_get_to_endpoints rule Hr) as [Hg Heps].
    rewrite Hg; simpl.
    destruct (sim_endpoints_ok dest port rule _ Hr Heps) as (o1 & Ho1 & Ha1 & Hiff1).
    rewrite Ho1; simpl.
    destruct o1 as [r1|].
    + exists (Some r1); split; [reflexivity|]; split; [exact Ha1|].
      split; [intros _ | intros _; discriminate].
      destruct (proj1 Hiff1 ltac:(discriminate)) as [H1 H2].
      exists rule; split; [left; reflexivity | auto].
    + destruct (IH Hrs) as (o & Ho & Ha & Hiff).
      exists o; split; [exact Ho|]; split; [exact Ha|].
      rewrite Hiff; split.
      * intros (q & Hq & Hr'); exists q; split; [right|]; auto.
      * intros (q & [<-|Hq] & Hr').
        -- exfalso; apply Hiff1 in Hr'; apply Hr'; reflexivity.
        -- exists q; auto.
Qed.

Lemma py_get_endpoint_selector (spec : value) :
  wf_spec spec = true ->
  exists es, py_get spec "endpointSelector" (VDict []) = Ok es
    /\ wf_selector es = true /\ selector_app es = spec_app spec.
Proof.
  unfold wf_spec, field_ok, spec_app; intros H; apply andb_prop in H as [H _].
  destruct spec as [| | | | |kvs]; try discriminate; simpl.
  destruct (lookup "endpointSelector" kvs) as [es|] eqn:E.
  - exists es; auto.
  - exists (VDict []); auto.
Qed.

Lemma sim_specs_ok (src dest port : string) (specs : list value) :
  forallb wf_spec specs = true ->
  exists o, sim_specs src dest port specs = Ok o /\ allowed_opt o
    /\ (o <> None <-> pair_matches specs src dest port).
Proof.
  unfold pair_matches.
  induction specs as [|spec specs IH]; simpl; intros H.
  - exists None; split; [reflexivity|]; split; [exact I|].
    split; [intros H'; exfalso; apply H'; reflexivity | intros (q & [] & _)].
  - apply andb_prop in H as [Hs Hss].
    destruct (py_get_endpoint_selector spec Hs) as (es & Hes & Hwes & Happ).
    destruct (py_get_selector_app es src Hwes) as (ml & a & Hml & Ha & Hiffa).
    rewrite Hes; simpl; rewrite Hml; simpl; rewrite Ha; simpl.
    rewrite Happ in Hiffa.
    destruct (IH Hss) as (o' & Ho' & Ha' & Hiff').
    destruct (eq_str a src) eqn:Ea.
    + assert (Hwe : field_ok spec "egress" (list_of wf_egress) = true)
        by (unfold wf_spec in Hs; apply andb_prop in Hs as [_ Hs]; exact Hs).
      destruct (py_get_list_field spec "egress" wf_egress Hwe) as [Hg Hrs].
      rewrite Hg; simpl.
      destruct (sim_egress_ok dest port _ Hrs) as (o1 & Ho1 & Ha1 & Hiff1).
      rewrite Ho1; simpl.
      destruct o1 as [r1|].
      * exists (Some r1); split; [reflexivity|]; split; [exact Ha1|].
        split; [intros _ | intros _; discriminate].
        exists spec; split; [left; reflexivity|]; split; [apply Hiffa; reflexivity|].
        apply Hiff1; discriminate.
      * exists o'; split; [exact Ho'|]; split; [exact Ha'|].
        rewrite Hiff'; split.
        -- intros (q & Hq & Hr'); exists q; split; [right|]; auto.
        -- intros (q & [<-|Hq] & Hq1 & Hq2).
           ++ exfalso; apply Hiff1 in Hq2; apply Hq2; reflexivity.
           ++ exists q; auto.
    + exists o'; split; [exact Ho'|]; split; [exact Ha'|].
      rewrite Hiff'; split.
      * intros (q & Hq & Hr'); exists q; split; [right|]; auto.
      * intros (q & [<-|Hq] & Hq1 & Hq2).
        -- apply Hiffa in Hq1; congruence.
        -- exists q; auto.
Qed.

(** The simulator on a document whose specs form a list of well-shaped
    PolicySpecs: Allowed exactly when some spec / rule pair matches,
    otherwise Blocked with the default-deny reason. *)
Lemma simulate_characterization (src dest port : string) (cnp : value) (specs : list value) :
  select_specs cnp = Ok (VList specs) ->
  forallb wf_spec specs = true ->
  exists r, _simulate_policy_enforcement src dest port cnp = Ok r
    /\ (pair_matches specs src dest port -> fst r = ALLOWED)
    /\ (~ pair_matches specs src dest port ->
        r = (BLOCKED, "No policy rule allows this connection")).
Proof.
  intros Hsel Hwf; unfold _simulate_policy_enforcement.
  rewrite Hsel; simpl.
  destruct (sim_specs_ok src dest port specs Hwf) as (o & Ho & Ha & Hiff).
  rewrite Ho; simpl.
  destruct o as [r|].
  - exists r; split; [reflexivity|]; split; [intros _; exact Ha|].
    intros Hn; exfalso; apply Hn, Hiff; discriminate.
  - exists (BLOCKED, "No policy rule allows this connection"); split; [reflexivity|].
    split; [|reflexivity].
    intros Hm; apply Hiff in Hm; exfalso; apply Hm; reflexivity.
Qed.

End SimulatorFacts.

(** ** Claims about the simulator *)

Module SimulatorClaims.
Import Tester Shape PolicyMatch SimulatorFacts Examples.

(** Default deny holds on documents that list their specs under [specs]. *)
Lemma default_deny_on_specs_list (src dest port : string) (cnp : value) (specs : list value) :
  select_specs cnp = Ok (VList specs) ->
  forallb wf_spec specs = true ->
  ~ pair_matches specs src dest port ->
  _simulate_policy_enforcement src dest port cnp
  = Ok (BLOCKED, "No policy rule allows this connection").
Proof.
  intros Hsel Hwf Hn.
  destruct (simulate_characterization src dest port cnp specs Hsel Hwf)
    as (r & Hr & _ & Hb).
  rewrite Hr, (Hb Hn); reflexivity.
Qed.

(** A matched rule without [toPorts] allows every port, on documents that
    list their specs under [specs]. *)
Lemma wildcard_on_specs_list (src dest port : string) (cnp : value) (specs : list value)
    (spec rule ep : value) :
  select_specs cnp = Ok (VList specs) ->
  forallb wf_spec specs = true ->
  In spec specs -> spec_app spec = Some (VStr src) ->
  In rule (list_field spec "egress") ->
  In ep (list_field rule "toEndpoints") -> selector_app ep = Some (VStr dest) ->
  list_field rule "toPorts" = [] ->
  exists reason, _simulate_policy_enforcement src dest port cnp = Ok (ALLOWED, reason).
Proof.
  intros Hsel Hwf Hs Hsa Hr Hep Hepa Htp.
  destruct (simulate_characterization src dest port cnp specs Hsel Hwf)
    as ([st reason] & Hres & Ha & _).
  exists reason; rewrite Hres; simpl in Ha.
  rewrite Ha; [reflexivity|].
  exists spec; split; [exact Hs|]; split; [exact Hsa|].
  exists rule; split; [exact Hr|]; split; [exists ep; auto|].
  left; exact Htp.
Qed.

(** C1 (code defect). Default deny fails on a policy written with a single
    [spec] mapping: no pair matches frontend -> db, yet the simulator does
    not return Blocked: iterating the [spec] mapping yields its keys, and
    [str.get] raises [AttributeError]. *)
Theorem simulate_single_spec_unmatched_raises :
  _simulate_policy_enforcement "frontend" "db" "80" single_spec_doc
  = Exc (PyExc "AttributeError" "'str' object has no attribute 'get'").
Proof. reflexivity. Qed.

(** C2 (code defect). Wildcard subsumption fails on a policy written with a
    single [spec] mapping: its rule frontend -> backend has no [toPorts],
    yet the simulator raises [AttributeError] instead of returning Allowed. *)
Theorem simulate_single_spec_wildcard_raises :
  _simulate_policy_enforcement "frontend" "backend" "443" single_spec_doc
  = Exc (PyExc "AttributeError" "'str' object has no attribute 'get'").
Proof. reflexivity. Qed.

(** C3 (counterexample). A matched rule whose [toPorts] entry lists no
    ports does not admit the wildcard candidate ["any"]: the simulator
    returns Blocked. *)
Lemma simulate_any_without_listed_ports_blocked :
  spec_app l7_only_spec = Some (VStr "frontend")
  /\ In l7_only_rule (list_field l7_only_spec "egress")
  /\ selector_app (app_selector "backend") = Some (VStr "backend")
  /\ In (app_selector "backend") (list_field l7_only_rule "toEndpoints")
  /\ list_field l7_only_rule "toPorts" <> []
  /\ _simulate_policy_enforcement "frontend" "backend" "any" l7_only_doc
     = Ok (BLOCKED, "No policy rule allows this connection").
Proof.
  repeat split; try reflexivity; try (simpl; left; reflexivity).
  discriminate.
Qed.

(** C3 (amended). On a document whose specs form a [specs] list of
    well-shaped PolicySpecs the simulator never raises; it returns Allowed
    iff some spec with [app == src] has an egress rule with a
    [toEndpoints] entry with [app == dest] that has no [toPorts], or lists
    a [toPorts[*].ports[*]] entry whose port equals the candidate, or lists
    any such entry while the candidate is ["any"]; otherwise Blocked with
    the default-deny reason. *)
Theorem simulate_port_matching (src dest port : string) (cnp : value) (specs : list value) :
  select_specs cnp = Ok (VList specs) ->
  forallb wf_spec specs = true ->
  exists r, _simulate_policy_enforcement src dest port cnp = Ok r
    /\ (pair_matches specs src dest port -> fst r = ALLOWED)
    /\ (~ pair_matches specs src dest port ->
        r = (BLOCKED, "No policy rule allows this connection")).
Proof. apply simulate_characterization. Qed.

Lemma simulate_port_matching_witness :
  select_specs two_spec_doc = Ok (VList two_spec_specs)
  /\ forallb wf_spec two_spec_specs = true
  /\ exists r, _simulate_policy_enforcement "A" "B" "80" two_spec_doc = Ok r
    /\ (pair_matches two_spec_specs "A" "B" "80" -> fst r = ALLOWED)
    /\ (~ pair_matches two_spec_specs "A" "B" "80" ->
        r = (BLOCKED, "No policy rule allows this connection")).
Proof.
  split; [reflexivity|]; split; [reflexivity|].
  apply (simulate_port_matching "A" "B" "80" two_spec_doc two_spec_specs);
    [reflexivity | reflexivity].
Defined.

(** C4 (code defect). The simulator throws on a syntactically valid,
    schema-valid document written with a single [spec] mapping. *)
Theorem simulate_single_spec_raises :
  _simulate_policy_enforcement "frontend" "backend" "80" single_spec_doc
  = Exc (PyExc "AttributeError" "'str' object has no attribute 'get'").
Proof. reflexivity. Qed.

(** The scenario of the specification, on a [specs] list. *)
Example two_spec_scenario :
  _simulate_policy_enforcement "A" "B" "80" two_spec_doc
    = Ok (ALLOWED, "Policy allows connection on port 80")
  /\ _simulate_policy_enforcement "A" "C" "443" two_spec_doc
    = Ok (BLOCKED, "No policy rule allows this connection")
  /\ _simulate_policy_enforcement "B" "C" "443" two_spec_doc
    = Ok (ALLOWED, "Policy allows connection on port 443").
Proof. repeat split. Qed.

End SimulatorClaims.


(** ** The converter *)

Module ConverterFacts.
Import Converter ConverterSpec.

Definition exc_ok {A} (m : result A) : Prop :=
  match m with Ok _ => True | Exc e => builtin_error e end.

Lemma exc_ok_bind {A B} (m : result A) (k : A -> result B) :
  exc_ok m -> (forall a, exc_ok (k a)) -> exc_ok (bind m k).
Proof. destruct m; simpl; auto. Qed.

Ltac exc_cls := simpl; unfold builtin_error; simpl; auto 10.

Lemma py_getitem_exc_ok (c : value) (k : string) : exc_ok (py_getitem c k).
Proof.
  destruct c; simpl; try exc_cls.
  destruct (lookup k kvs); simpl; [exact I | exc_cls].
Qed.

Lemma py_upper_exc_ok (v : value) : exc_ok (py_upper v).
Proof. destruct v; simpl; try exact I; exc_cls. Qed.

Lemma py_iter_exc_ok (v : value) : exc_ok (py_iter v).
Proof. destruct v; simpl; try exact I; exc_cls. Qed.

Lemma map_res_exc_ok {A B} (f : A -> result B) (l : list A) :
  (forall x, exc_ok (f x)) -> exc_ok (map_res f l).
Proof.
  intros Hf; induction l as [|x l IH]; simpl; [exact I|].
  apply exc_ok_bind; [apply Hf|]; intros y.
  apply exc_ok_bind; [exact IH|]; intros ys; exact I.
Qed.

Lemma group_rules_exc_ok (rules : list value) (groups : list (value * list value)) :
  exc_ok (group_rules rules groups).
Proof.
  revert groups; induction rules as [|r rules IH]; intros groups; simpl; [exact I|].
  apply exc_ok_bind; [apply py_getitem_exc_ok|]; intros src.
  destruct (hashable src); [apply IH | exc_cls].
Qed.

Lemma convert_rules_exc_ok (rules : value) : exc_ok (convert_rules rules).
Proof.
  unfold convert_rules.
  apply exc_ok_bind; [apply py_iter_exc_ok|]; intros rs.
  apply exc_ok_bind; [apply group_rules_exc_ok|]; intros grouped.
  apply exc_ok_bind; [|intros; exact I].
  apply map_res_exc_ok; intros g; unfold spec_of.
  apply exc_ok_bind; [|intros; exact I].
  apply map_res_exc_ok; intros e; unfold egress_rule_of.
  apply exc_ok_bind; [apply py_getitem_exc_ok|]; intros dest.
  apply exc_ok_bind; [apply py_getitem_exc_ok|]; intros port.
  apply exc_ok_bind; [apply py_getitem_exc_ok|]; intros proto.
  apply exc_ok_bind; [apply py_upper_exc_ok|]; intros; exact I.
Qed.

Definition in_groups (r : value) (groups : list (value * list value)) : Prop :=
  exists k es, In (k, es) groups /\ In r es.

Lemma add_to_group_keeps (key r r0 : value) (groups : list (value * list value)) :
  in_groups r0 groups -> in_groups r0 (add_to_group key r groups).
Proof.
  intros (k & es & Hin & Hr0).
  induction groups as [|[k' es'] groups IH]; simpl in *; [contradiction|].
  destruct Hin as [Heq|Hin].
  - inversion Heq; subst.
    destruct (py_key_eq k key).
    + exists k, (es ++ [r]); split; [left; reflexivity | apply in_or_app; left; exact Hr0].
    + exists k, es; split; [left; reflexivity | exact Hr0].
  - destruct (py_key_eq k' key).
    + exists k, es; split; [right; exact Hin | exact Hr0].
    + destruct (IH Hin) as (k2 & es2 & H2 & H3).
      exists k2, es2; split; [right; exact H2 | exact H3].
Qed.

Lemma add_to_group_adds (key r : value) (groups : list (value * list value)) :
  in_groups r (add_to_group key r groups).
Proof.
  induction groups as [|[k es] groups IH]; simpl.
  - exists key, [r]; split; left; reflexivity.
  - destruct (py_key_eq k key).
    + exists k, (es ++ [r]); split; [left; reflexivity | apply in_or_app; right; left; reflexivity].
    + destruct IH as (k2 & es2 & H2 & H3).
      exists k2, es2; split; [right; exact H2 | exact H3].
Qed.

(** What a successful [r["src"]] with a hashable result says of [r]. *)
Definition src_ok (r : value) : Prop :=
  exists kvs s, r = VDict kvs /\ lookup "src" kvs = Some s /\ hashable s = true.

Lemma group_rules_ok (rules : list value) (groups groups' : list (value * list value)) :
  group_rules rules groups = Ok groups' ->
  (forall r0, in_groups r0 groups -> in_groups r0 groups')
  /\ (forall r, In r rules -> src_ok r /\ in_groups r groups').
Proof.
  revert groups; induction rules as [|r rules IH]; intros groups H; simpl in H.
  - inversion H; subst; split; [auto | intros r []].
  - destruct r as [| | | | |kvs]; simpl in H; try discriminate.
    destruct (lookup "src" kvs) as [src|] eqn:Es; simpl in H; try discriminate.
    destruct (hashable src) eqn:Eh; try discriminate.
    destruct (IH _ H) as [Hkeep Hall].
    split.
    + intros r0 Hr0; apply Hkeep, add_to_group_keeps, Hr0.
    + intros r [<-|Hr].
      * split; [exists kvs, src; auto|].
        apply Hkeep, add_to_group_adds.
      * apply Hall, Hr.
Qed.

Lemma map_res_ok {A B} (f : A -> result B) (l : list A) (ys : list B) :
  map_res f l = Ok ys -> forall x, In x l -> exists y, f x = Ok y.
Proof.
  revert ys; induction l as [|x l IH]; intros ys H y Hy; simpl in *; [contradiction|].
  destruct (f x) as [b|e] eqn:Ef; simpl in H; [|discriminate].
  destruct (map_res f l) as [bs|e] eqn:El; simpl in H; [|discriminate].
  destruct Hy as [<-|Hy]; [exists b; exact Ef | exact (IH bs eq_refl y Hy)].
Qed.

Lemma egress_rule_of_ok (e : value) (v : value) :
  egress_rule_of e = Ok v ->
  exists kvs d p q, e = VDict kvs /\ lookup "dest" kvs = Some d
    /\ lookup "port" kvs = Some p /\ lookup "proto" kvs = Some (VStr q).
Proof.
  unfold egress_rule_of; intros H.
  destruct e as [| | | | |kvs]; simpl in H; try discriminate.
  destruct (lookup "dest" kvs) as [d|] eqn:Ed; simpl in H; try discriminate.
  destruct (lookup "port" kvs) as [pt|] eqn:Ep; simpl in H; try discriminate.
  destruct (lookup "proto" kvs) as [[| | | q | |]|] eqn:Eq; simpl in H; try discriminate.
  exists kvs, d, pt, q; auto.
Qed.

(** A document is produced only when every rule is well formed. *)
Lemma convert_rules_ok_wellformed (rules : list value) (doc : value) :
  convert_rules (VList rules) = Ok doc -> forall r, In r rules -> rule_wellformed r = true.
Proof.
  unfold convert_rules; simpl.
  destruct (group_rules rules []) as [grouped|e] eqn:Eg; simpl; [|discriminate].
  destruct (map_res spec_of grouped) as [specs|e] eqn:Em; simpl; [|discriminate].
  intros _ r Hr.
  destruct (group_rules_ok rules [] grouped Eg) as [_ Hall].
  destruct (Hall r Hr) as [(kvs & src & -> & Hsrc & Hh) (k & es & Hkes & Hres)].
  destruct (map_res_ok spec_of grouped specs Em (k, es) Hkes) as (sp & Hsp).
  unfold spec_of in Hsp; simpl in Hsp.
  destruct (map_res egress_rule_of es) as [ers|e] eqn:Ee; simpl in Hsp; [|discriminate].
  destruct (map_res_ok egress_rule_of es ers Ee (VDict kvs) Hres) as (v & Hv).
  destruct (egress_rule_of_ok _ _ Hv) as (kvs' & d & p & q & Heq & Hd & Hp & Hq).
  inversion Heq; subst kvs'.
  unfold rule_wellformed; rewrite Hsrc, Hd, Hp, Hq; exact Hh.
Qed.

End ConverterFacts.

Module ConverterClaims.
Import Converter ConverterSpec ConverterFacts Visualizer Examples.

(** C6 (counterexample). The connection extracted from the converted
    round-trip policy carries a fifth field, [connection_type], so the
    extracted list is not exactly the four-field connection. *)
Lemma round_trip_extra_field :
  exists doc c, convert_rules frontend_rules = Ok doc
    /\ _extract_connections doc = Ok [c]
    /\ dict_lookup c "connection_type" = Some (VStr "egress")
    /\ dict_lookup (VDict [("src", VStr "frontend"); ("dest", VStr "backend");
                           ("port", VStr "80"); ("protocol", VStr "TCP")])
                   "connection_type" = None.
Proof.
  eexists; eexists; split; [reflexivity|]; split; [reflexivity|].
  split; reflexivity.
Qed.

(** C6 (amended). Converting [{src: frontend, dest: backend, port: 80,
    proto: tcp}] yields one PolicySpec selecting [app: frontend] with one
    egress rule to [app: backend] on port ["80"] / [TCP]; extracting
    connections from it yields exactly one connection, with the fields
    src, dest, port ["80"], protocol ["TCP"] and connection_type
    ["egress"]. *)
Theorem round_trip_grouping :
  convert_rules frontend_rules
  = Ok (VDict [("apiVersion", VStr "cilium.io/v2");
               ("kind", VStr "CiliumNetworkPolicy");
               ("metadata", VDict [("name", VStr "generated-policy")]);
               ("specs", VList [
                  VDict [("endpointSelector", app_selector "frontend");
                         ("egress", VList [
                            VDict [("toEndpoints", VList [app_selector "backend"]);
                                   ("toPorts", VList [port_rule "80" "TCP"])]])]])])
  /\ (doc <- convert_rules frontend_rules ;; _extract_connections doc)
     = Ok [VDict [("src", VStr "frontend"); ("dest", VStr "backend");
                  ("port", VStr "80"); ("protocol", VStr "TCP");
                  ("connection_type", VStr "egress")]].
Proof. split; reflexivity. Qed.

(** C8 (counterexample). A rule without [src] makes the conversion raise
    Python's [KeyError('src')], not a [ConversionError] naming the rule's
    index. *)
Lemma convert_missing_src_keyerror :
  convert_rules rules_missing_src = Exc (PyExc "KeyError" "'src'")
  /\ exn_cls (PyExc "KeyError" "'src'") <> "ConversionError".
Proof. split; [reflexivity | discriminate]. Qed.

End ConverterClaims.

(** ** The connection extractor *)

Module ExtractorFacts.
Import Visualizer Shape PolicyMatch SimulatorFacts.

Lemma concat_res_forall {A B} (f : A -> result (list B)) (P : B -> Prop) (l : list A) :
  (forall x, In x l -> exists ys, f x = Ok ys /\ Forall P ys) ->
  exists zs, concat_res f l = Ok zs /\ Forall P zs.
Proof.
  induction l as [|x l IH]; intros Hf; simpl.
  - exists []; split; [reflexivity | constructor].
  - destruct (Hf x (or_introl eq_refl)) as (ys & Hys & Pys).
    destruct IH as (zs & Hzs & Pzs); [intros y Hy; apply Hf; right; exact Hy|].
    rewrite Hys; simpl; rewrite Hzs; simpl.
    exists (ys ++ zs); split; [reflexivity | apply Forall_app; auto].
Qed.

Lemma py_get_selector_value (sel : value) :
  wf_selector sel = true ->
  exists ml, py_get sel "matchLabels" (VDict []) = Ok ml
    /\ py_get ml "app" VNone = Ok (opt_val (selector_app sel)).
Proof.
  unfold wf_selector, field_ok, selector_app.
  destruct sel as [| | | | |kvs]; simpl; try discriminate.
  destruct (lookup "matchLabels" kvs) as [[| | | | |mkvs]|];
    simpl; try discriminate; intros _.
  - exists (VDict mkvs); split; [reflexivity|]; simpl.
    destruct (lookup "app" mkvs); reflexivity.
  - exists (VDict []); split; reflexivity.
Qed.

Definition conn_ok (src dest c : value) : Prop :=
  dict_lookup c "src" = Some src /\ dict_lookup c "dest" = Some dest.

Lemma ext_port_rule_ok (src dest pr : value) :
  wf_port_rule pr = true ->
  exists cs, ext_port_rule src dest pr = Ok cs /\ Forall (conn_ok src dest) cs.
Proof.
  unfold wf_port_rule, ext_port_rule; intros H.
  destruct (py_get_list_field pr "ports" is_dict H) as [Hg Hd].
  rewrite Hg; simpl.
  apply concat_res_forall; intros p Hp.
  pose proof (proj1 (forallb_forall _ _) Hd p Hp) as Hpd.
  destruct p as [| | | | |kvs]; try discriminate.
  eexists; split; [reflexivity|].
  constructor; [split; reflexivity | constructor].
Qed.

Definition endpoint_dest (ep : value) : value :=
  py_or (opt_val (selector_app ep)) (VStr "unknown-dest").

Definition spec_src (spec : value) : value :=
  py_or (opt_val (spec_app spec)) (VStr "unknown-source").

Lemma ext_endpoint_ok (src : value) (l : list value) (ep : value) :
  forallb wf_port_rule l = true -> wf_selector ep = true ->
  exists cs, ext_endpoint src (VList l) ep = Ok cs
    /\ Forall (conn_ok src (endpoint_dest ep)) cs.
Proof.
  intros Hl Hep; unfold ext_endpoint.
  destruct (py_get_selector_value ep Hep) as (ml & Hml & Ha).
  rewrite Hml; simpl; rewrite Ha; simpl.
  destruct l as [|pr prs]; cbn -[concat_res].
  - eexists; split; [reflexivity|].
    constructor; [split; reflexivity | constructor].
  - apply concat_res_forall; intros x Hx.
    apply ext_port_rule_ok.
    exact (proj1 (forallb_forall _ _) Hl x Hx).
Qed.

Lemma ext_egress_ok (src egress : value) :
  wf_egress egress = true ->
  exists cs, ext_egress src egress = Ok cs
    /\ Forall (fun c => dict_lookup c "src" = Some src) cs.
Proof.
  intros H; unfold ext_egress.
  destruct (py_get_to_endpoints egress H) as [Hge Hwe].
  destruct (py_get_to_ports egress H) as [Hgp Hwp].
  rewrite Hge; simpl; rewrite Hgp; simpl.
  apply concat_res_forall; intros ep Hep.
  destruct (ext_endpoint_ok src _ ep Hwp (proj1 (forallb_forall _ _) Hwe ep Hep))
    as (cs & Hcs & Pcs).
  exists cs; split; [exact Hcs|].
  eapply Forall_impl; [|exact Pcs]; intros c [Hc _]; exact Hc.
Qed.

Lemma ext_spec_ok (spec : value) :
  wf_spec spec = true ->
  exists cs, ext_spec spec = Ok cs
    /\ Forall (fun c => dict_lookup c "src" = Some (spec_src spec)) cs.
Proof.
  intros H; unfold ext_spec.
  destruct (truthy spec) eqn:Et; simpl; [|exists []; split; [reflexivity | constructor]].
  destruct (py_get_endpoint_selector spec H) as (es & Hes & Hwes & Happ).
  destruct (py_get_selector_value es Hwes) as (ml & Hml & Ha).
  rewrite Hes; simpl; rewrite Hml; simpl; rewrite Ha; simpl.
  assert (Hwe : field_ok spec "egress" (list_of wf_egress) = true)
    by (unfold wf_spec in H; apply andb_prop in H as [_ H]; exact H).
  destruct (py_get_list_field spec "egress" wf_egress Hwe) as [Hg Hrs].
  rewrite Hg; simpl.
  apply concat_res_forall; intros r Hr.
  unfold spec_src; rewrite <- Happ.
  apply ext_egress_ok.
  exact (proj1 (forallb_forall _ _) Hrs r Hr).
Qed.

Lemma extract_connections_ok (cnp : value) :
  wf_ext_doc cnp = true -> exists cs, _extract_connections cnp = Ok cs.
Proof.
  unfold wf_ext_doc, _extract_connections.
  destruct (select_specs cnp) as [[| | | | l |]|] eqn:E; try discriminate.
  intros H; simpl.
  destruct (concat_res_forall ext_spec (fun _ => True) l) as (cs & Hcs & _).
  - intros spec Hs.
    pose proof (proj1 (forallb_forall _ _) H spec Hs) as Hw.
    cbv beta in Hw; destruct (truthy spec) eqn:Et; simpl in Hw.
    + destruct (ext_spec_ok spec Hw) as (cs & Hcs & _).
      exists cs; split; [exact Hcs|].
      apply Forall_forall; intros; exact I.
    + exists []; split; [unfold ext_spec; rewrite Et; reflexivity | constructor].
  - exists cs; exact Hcs.
Qed.

End ExtractorFacts.

Module ExtractorClaims.
Import Visualizer Shape PolicyMatch ExtractorFacts Examples.

(** C7 (counterexample). On a spec without an [app] label the extractor
    uses ["unknown-source"], and on a destination without one
    ["unknown-dest"], not the literal ["unknown"]. *)
Lemma extract_fallback_literals :
  _extract_connections partial_doc
  = Ok [connection (VStr "unknown-source") (VStr "unknown-dest") (VStr "any") (VStr "any");
        connection (VStr "unknown-source") (VStr "db") (VStr "any") (VStr "any")]
  /\ spec_app partial_spec = None
  /\ "unknown-source" <> "unknown" /\ "unknown-dest" <> "unknown".
Proof. repeat split; discriminate. Qed.

(** C7 (amended). Extraction never fails on a document whose present
    fields have the schema's types, labels missing or not; a PolicySpec
    without [endpointSelector.matchLabels.app] contributes connections
    whose source is ["unknown-source"], and a [toEndpoints] entry without
    an [app] label gives connections whose destination is
    ["unknown-dest"]. *)
Theorem extract_unknown_fallback (cnp spec rule ep : value) :
  wf_ext_doc cnp = true -> wf_spec spec = true ->
  wf_egress rule = true -> wf_selector ep = true ->
  (exists cs, _extract_connections cnp = Ok cs)
  /\ (spec_app spec = None ->
      exists cs, ext_spec spec = Ok cs
        /\ Forall (fun c => dict_lookup c "src" = Some (VStr "unknown-source")) cs)
  /\ (selector_app ep = None -> forall src,
      exists cs, ext_endpoint src (VList (list_field rule "toPorts")) ep = Ok cs
        /\ Forall (fun c => dict_lookup c "dest" = Some (VStr "unknown-dest")) cs).
Proof.
  intros Hdoc Hspec Hrule Hep; split; [apply extract_connections_ok; exact Hdoc|].
  split.
  - intros Hnone.
    destruct (ext_spec_ok spec Hspec) as (cs & Hcs & Pcs).
    exists cs; split; [exact Hcs|].
    unfold spec_src in Pcs; rewrite Hnone in Pcs; exact Pcs.
  - intros Hnone src.
    destruct (SimulatorFacts.py_get_to_ports rule Hrule) as [_ Hwp].
    destruct (ext_endpoint_ok src _ ep Hwp Hep) as (cs & Hcs & Pcs).
    exists cs; split; [exact Hcs|].
    eapply Forall_impl; [|exact Pcs].
    intros c [_ Hd]; unfold endpoint_dest in Hd; rewrite Hnone in Hd; exact Hd.
Qed.

Lemma extract_unknown_fallback_witness :
  (exists cs, _extract_connections partial_doc = Ok cs)
  /\ (spec_app partial_spec = None ->
      exists cs, ext_spec partial_spec = Ok cs
        /\ Forall (fun c => dict_lookup c "src" = Some (VStr "unknown-source")) cs)
  /\ (selector_app (VDict []) = None -> forall src,
      exists cs, ext_endpoint src
                   (VList (list_field (VDict [("toEndpoints", VList [VDict []; app_selector "db"])])
                                      "toPorts")) (VDict []) = Ok cs
        /\ Forall (fun c => dict_lookup c "dest" = Some (VStr "unknown-dest")) cs).
Proof.
  apply (extract_unknown_fallback partial_doc partial_spec
           (VDict [("toEndpoints", VList [VDict []; app_selector "db"])]) (VDict []));
    reflexivity.
Defined.

End ExtractorClaims.



(* ================================================================= *)
(** ** The validator *)

Module ValidatorFacts.
Import Schema Validator.

Definition inv (r : ValidationResult) : Prop :=
  is_valid r = true <-> yaml_syntax_errors r = [] /\ schema_errors r = [].

Lemma app_single_neq {A} (l : list A) (x : A) : app l [x] <> [].
Proof. destruct l; discriminate. Qed.

Lemma inv_new : inv new_result.
Proof. unfold inv; simpl; tauto. Qed.

Lemma inv_syntax r e : inv (add_yaml_syntax_error r e).
Proof.
  unfold inv; simpl; split; [discriminate|].
  intros [H _]; exfalso; exact (app_single_neq _ _ H).
Qed.

Lemma inv_schema r e : inv (add_schema_error r e).
Proof.
  unfold inv; simpl; split; [discriminate|].
  intros [_ H]; exfalso; exact (app_single_neq _ _ H).
Qed.

Lemma inv_lint r w : inv r -> inv (add_yaml_lint_warning r w).
Proof. unfold inv; simpl; tauto. Qed.

Lemma inv_suggestion r s : inv r -> inv (add_suggestion r s).
Proof. unfold inv; simpl; tauto. Qed.

Lemma fold_inv {A} (f : ValidationResult -> A -> ValidationResult) :
  (forall r x, inv r -> inv (f r x)) -> forall l r, inv r -> inv (fold_left f l r).
Proof. intros Hf l; induction l as [|x l IH]; simpl; auto. Qed.

Lemma validate_policy_inv fp ex syn lint r :
  validate_policy fp ex syn lint = Ok r -> inv r.
Proof.
  unfold validate_policy.
  destruct ex; simpl.
  2:{ intros H; injection H as <-; apply inv_syntax. }
  destruct syn as [[sv errs] d].
  assert (H0 : inv (fold_left add_yaml_syntax_error errs new_result))
    by (apply fold_inv; [intros; apply inv_syntax | apply inv_new]).
  destruct sv; simpl.
  2:{ intros H; injection H as <-; exact H0. }
  assert (H1 : inv (fold_left add_yaml_lint_warning lint
                      (fold_left add_yaml_syntax_error errs new_result)))
    by (apply fold_inv; [intros; apply inv_lint; assumption | exact H0]).
  destruct (truthy d).
  2:{ intros H; injection H as <-; exact H1. }
  destruct (generate_suggestions d); simpl; [|discriminate].
  intros H; injection H as <-.
  apply fold_inv; [intros; apply inv_suggestion; assumption|].
  apply fold_inv; [intros; apply inv_schema | exact H1].
Qed.

Lemma fold_field {A B} (f : ValidationResult -> A -> ValidationResult)
    (g : ValidationResult -> B) :
  (forall r x, g (f r x) = g r) -> forall l r, g (fold_left f l r) = g r.
Proof. intros Hf l; induction l as [|x l IH]; simpl; intros r; [|rewrite IH]; auto. Qed.

Lemma fold_schema_errors l r :
  schema_errors (fold_left add_schema_error l r) = app (schema_errors r) l.
Proof.
  revert r; induction l as [|x l IH]; intros r; simpl.
  - symmetry; apply app_nil_r.
  - rewrite IH; simpl; rewrite <- app_assoc; reflexivity.
Qed.

Lemma fold_suggestions l r :
  suggestions (fold_left add_suggestion l r) = app (suggestions r) l.
Proof.
  revert r; induction l as [|x l IH]; intros r; simpl.
  - symmetry; apply app_nil_r.
  - rewrite IH; simpl; rewrite <- app_assoc; reflexivity.
Qed.

Lemma errs_in_kw s props v p k e :
  In k s -> In e (kw_errors k props v p) -> In e (errs_in s props v p).
Proof.
  induction s as [|k' s IH]; simpl; [tauto|].
  intros [<- | Hk] He; apply in_or_app; auto.
Qed.

Lemma insert_sorted_in x e l : In x (insert_sorted e l) <-> e = x \/ In x l.
Proof.
  induction l as [|y l IH]; simpl; [tauto|].
  destruct (path_lt (err_path e) (err_path y)); simpl; [tauto|].
  rewrite IH; tauto.
Qed.

Lemma sort_errors_in x l : In x (sort_errors l) <-> In x l.
Proof.
  unfold sort_errors.
  cut (forall acc, In x (fold_left (fun acc e => insert_sorted e acc) l acc)
                   <-> In x acc \/ In x l).
  { intros H; rewrite H; simpl; tauto. }
  induction l as [|e l IH]; intros acc; simpl; [tauto|].
  rewrite IH, insert_sorted_in; tauto.
Qed.

Lemma lookup_truthy k kvs a : lookup k kvs = Some a -> truthy (VDict kvs) = true.
Proof. destruct kvs; [discriminate | reflexivity]. Qed.

(** With both keys present, the root [oneOf] reports both alternatives. *)
Lemma root_one_of_both kvs a b :
  lookup "spec" kvs = Some a -> lookup "specs" kvs = Some b ->
  In (mk_err [] (repr (VDict kvs)
                 ++ " is valid under each of {'required': ['specs']}, {'required': ['spec']}")%string)
     (iter_errors CILIUM_NETWORK_POLICY_SCHEMA (VDict kvs)).
Proof.
  intros Ha Hb.
  unfold iter_errors.
  eapply errs_in_kw.
  - unfold CILIUM_NETWORK_POLICY_SCHEMA; right; right; right; left; reflexivity.
  - simpl; rewrite Ha, Hb; simpl; left; reflexivity.
Qed.

(** With both keys present, the suggestion pass gives the advisory and
    then reads the specs from [specs]; [spec] only counts for its
    truthiness. *)
Lemma generate_suggestions_both kvs a b :
  lookup "kind" kvs = Some (VStr "CiliumNetworkPolicy") ->
  lookup "spec" kvs = Some a -> lookup "specs" kvs = Some b ->
  generate_suggestions (VDict kvs) =
    (items <- py_iter (if (truthy b || truthy a)%bool then b else VList []) ;;
     rest <- enumerate_suggestions true 0 items ;;
     Ok (both_msg :: rest)).
Proof.
  intros Hk Ha Hb; unfold generate_suggestions; rewrite Hk, Ha, Hb; simpl.
  destruct (truthy b), (truthy a); reflexivity.
Qed.

End ValidatorFacts.

Module ValidatorClaims.
Import Schema Validator ValidatorFacts Examples.
Local Open Scope string_scope.

(** C5 (counterexample): the policy [both_keys_doc], valid against every
    other part of the schema, carries both [spec] and [specs]; validation
    reports it invalid, with the single schema error of the root [oneOf],
    and also gives the advisory naming both keys. *)
Lemma both_keys_doc_invalid :
  validate_policy "policy.yaml" true (true, [], both_keys_doc) [] =
  Ok (mkResult false [] []
        ["Schema validation error at 'root': {'apiVersion': 'cilium.io/v2', 'kind': 'CiliumNetworkPolicy', 'metadata': {'name': 'frontend-policy'}, 'spec': {'endpointSelector': {'matchLabels': {'app': 'frontend'}}}, 'specs': [{'endpointSelector': {'matchLabels': {'app': 'frontend'}}}]} is valid under each of {'required': ['specs']}, {'required': ['spec']}"]
        [both_msg]).
Proof. vm_compute; reflexivity. Qed.

(** C5: whenever a parsed policy mapping has both a [spec] and a [specs]
    key, [validate_policy] (if it returns) marks it invalid, its schema
    errors contain the root [oneOf] error saying the document is valid
    under both alternatives, and, when its [kind] is
    CiliumNetworkPolicy, its suggestions are the advisory naming both
    keys followed by the suggestions for the entries of [specs]
    (labelled [spec[i]]); the [spec] value is never read for them, only
    tested for truthiness. *)
Theorem both_keys_schema_invalid fp syntax_errors lint kvs a b r
    (Ha : lookup "spec" kvs = Some a) (Hb : lookup "specs" kvs = Some b)
    (H : validate_policy fp true (true, syntax_errors, VDict kvs) lint = Ok r) :
  is_valid r = false
  /\ In ("Schema validation error at 'root': " ++ repr (VDict kvs)
         ++ " is valid under each of {'required': ['specs']}, {'required': ['spec']}")
        (schema_errors r)
  /\ (lookup "kind" kvs = Some (VStr "CiliumNetworkPolicy") ->
      exists rest, suggestions r = both_msg :: rest
        /\ (items <- py_iter (if (truthy b || truthy a)%bool then b else VList []) ;;
            enumerate_suggestions true 0 items) = Ok rest).
Proof.
  pose proof (validate_policy_inv _ _ _ _ _ H) as Hinv.
  unfold validate_policy in H; cbn beta iota zeta delta [negb] in H.
  rewrite (lookup_truthy _ _ _ Ha) in H.
  destruct (generate_suggestions (VDict kvs)) as [sugg|] eqn:Hg; cbn [bind] in H;
    [|discriminate].
  injection H as <-.
  set (r0 := fold_left add_yaml_lint_warning lint
               (fold_left add_yaml_syntax_error syntax_errors new_result)) in *.
  assert (Hin : In ("Schema validation error at 'root': " ++ repr (VDict kvs)
                    ++ " is valid under each of {'required': ['specs']}, {'required': ['spec']}")
                   (schema_errors (fold_left add_suggestion sugg
                      (fold_left add_schema_error (validate_cilium_schema (VDict kvs)) r0)))).
  { rewrite (fold_field add_suggestion schema_errors) by reflexivity.
    rewrite fold_schema_errors.
    apply in_or_app; right.
    unfold validate_cilium_schema.
    change ("Schema validation error at 'root': " ++ repr (VDict kvs)
            ++ " is valid under each of {'required': ['specs']}, {'required': ['spec']}")
      with (render (mk_err [] (repr (VDict kvs)
            ++ " is valid under each of {'required': ['specs']}, {'required': ['spec']}"))).
    apply in_map, sort_errors_in.
    apply root_one_of_both with a b; assumption. }
  split; [|split; [exact Hin|]].
  - destruct (is_valid _) eqn:E; [|reflexivity].
    exfalso; destruct (proj1 Hinv E) as [_ Hs].
    rewrite Hs in Hin; exact Hin.
  - intros Hk.
    rewrite fold_suggestions,
      (fold_field add_schema_error suggestions) by reflexivity.
    unfold r0; rewrite (fold_field add_yaml_lint_warning suggestions) by reflexivity.
    rewrite (fold_field add_yaml_syntax_error suggestions) by reflexivity.
    rewrite (generate_suggestions_both kvs a b Hk Ha Hb) in Hg.
    destruct (py_iter _) as [items|]; cbn [bind] in Hg |- *; [|discriminate].
    destruct (enumerate_suggestions _ _ _) as [rest|]; cbn [bind] in Hg; [|discriminate].
    injection Hg as <-; exists rest; split; reflexivity.
Qed.

(** C5 (witness): [spec] and [specs] differ; the suggestions after the
    advisory are those of the [specs] entry. *)
Lemma both_keys_schema_invalid_witness :
  exists r, validate_policy "policy.yaml" true (true, [], VDict both_keys_diff_kvs) [] = Ok r
    /\ suggestions r = [both_msg; "spec[0]: Empty egress rules - consider removing or adding rules"]
    /\ (is_valid r = false
       /\ In ("Schema validation error at 'root': " ++ repr (VDict both_keys_diff_kvs)
              ++ " is valid under each of {'required': ['specs']}, {'required': ['spec']}")
             (schema_errors r)
       /\ (lookup "kind" both_keys_diff_kvs = Some (VStr "CiliumNetworkPolicy") ->
           exists rest, suggestions r = both_msg :: rest
             /\ (items <- py_iter (if (truthy (VList [VDict [("endpointSelector", app_selector "frontend");
                                                            ("egress", VList [])]])
                                      || truthy (VDict [("egress", VList [])]))%bool
                                   then VList [VDict [("endpointSelector", app_selector "frontend");
                                                      ("egress", VList [])]]
                                   else VList []) ;;
                 enumerate_suggestions true 0 items) = Ok rest)).
Proof.
  eexists; split; [vm_compute; reflexivity|].
  split; [vm_compute; reflexivity|].
  apply (both_keys_schema_invalid "policy.yaml" [] [] both_keys_diff_kvs
           (VDict [("egress", VList [])])
           (VList [VDict [("endpointSelector", app_selector "frontend"); ("egress", VList [])]]));
    vm_compute; reflexivity.
Defined.

(** C9: every result [validate_policy] returns is valid exactly when it
    holds no syntax error and no schema error; adding a lint warning or a
    suggestion leaves validity as it is. *)
Theorem validation_result_invariant fp file_exists syntax lint r
    (H : validate_policy fp file_exists syntax lint = Ok r) :
  (is_valid r = true <-> yaml_syntax_errors r = [] /\ schema_errors r = [])
  /\ (forall w, is_valid (add_yaml_lint_warning r w) = is_valid r)
  /\ (forall s, is_valid (add_suggestion r s) = is_valid r).
Proof.
  split; [exact (validate_policy_inv _ _ _ _ _ H)|].
  split; intros; reflexivity.
Qed.

(** C9 (witness): an invalid result with a schema error, a lint warning
    and suggestions; a valid result with a lint warning; an invalid
    result with a syntax error. *)
Lemma validation_result_invariant_witness :
  (exists r, validate_policy "policy.yaml" true (true, [], VDict both_keys_diff_kvs) [lint_warning] = Ok r
     /\ (is_valid r = false /\ schema_errors r <> [] /\ yaml_lint_warnings r = [lint_warning]
        /\ suggestions r <> [])
     /\ ((is_valid r = true <-> yaml_syntax_errors r = [] /\ schema_errors r = [])
        /\ (forall w, is_valid (add_yaml_lint_warning r w) = is_valid r)
        /\ (forall s, is_valid (add_suggestion r s) = is_valid r))) /\
  (exists r, validate_policy "policy.yaml" true (true, [], single_spec_doc) [lint_warning] = Ok r
     /\ (is_valid r = true /\ yaml_lint_warnings r = [lint_warning])
     /\ ((is_valid r = true <-> yaml_syntax_errors r = [] /\ schema_errors r = [])
        /\ (forall w, is_valid (add_yaml_lint_warning r w) = is_valid r)
        /\ (forall s, is_valid (add_suggestion r s) = is_valid r))) /\
  (exists r, validate_policy "policy.yaml" true (false, ["bad indentation"], VNone) [lint_warning] = Ok r
     /\ (is_valid r = false /\ yaml_syntax_errors r = ["bad indentation"])
     /\ ((is_valid r = true <-> yaml_syntax_errors r = [] /\ schema_errors r = [])
        /\ (forall w, is_valid (add_yaml_lint_warning r w) = is_valid r)
        /\ (forall s, is_valid (add_suggestion r s) = is_valid r))).
Proof.
  split; [|split].
  - eexists; split; [vm_compute; reflexivity|].
    split; [repeat split; vm_compute; congruence|].
    apply (validation_result_invariant "policy.yaml" true (true, [], VDict both_keys_diff_kvs)
             [lint_warning]); vm_compute; reflexivity.
  - eexists; split; [vm_compute; reflexivity|].
    split; [split; reflexivity|].
    apply (validation_result_invariant "policy.yaml" true (true, [], single_spec_doc)
             [lint_warning]); vm_compute; reflexivity.
  - eexists; split; [vm_compute; reflexivity|].
    split; [split; reflexivity|].
    apply (validation_result_invariant "policy.yaml" true (false, ["bad indentation"], VNone)
             [lint_warning]); vm_compute; reflexivity.
Defined.

(** C10: [generate_suggestions] returns no suggestion for a parsed
    document that is not a mapping or whose [kind] is not the string
    CiliumNetworkPolicy. *)
Theorem suggestions_gated_on_kind data
    (Hk : dict_lookup data "kind" <> Some (VStr "CiliumNetworkPolicy")) :
  generate_suggestions data = Ok [].
Proof.
  destruct data as [| | | | |kvs]; try reflexivity.
  simpl in Hk; unfold generate_suggestions; cbn zeta.
  destruct (lookup "kind" kvs) as [v|]; [|reflexivity].
  destruct v as [| | |k| |]; try reflexivity.
  simpl; destruct (String.eqb_spec k "CiliumNetworkPolicy") as [->|]; [|reflexivity].
  contradiction.
Qed.

(** C10 (witness). *)
Lemma suggestions_gated_on_kind_witness :
  dict_lookup k8s_doc "kind" <> Some (VStr "CiliumNetworkPolicy")
  /\ generate_suggestions k8s_doc = Ok [].
Proof.
  split; [vm_compute; intros Hk; discriminate Hk|].
  apply suggestions_gated_on_kind; vm_compute; intros Hk; discriminate Hk.
Defined.

End ValidatorClaims.

(* ================================================================= *)
(** ** Converted policies *)

Module ConvertedFacts.
Import Converter ConverterFacts PolicyMatch.

Lemma map_res_Forall2 {A B} (f : A -> result B) (l : list A) (ys : list B) :
  map_res f l = Ok ys -> Forall2 (fun x y => f x = Ok y) l ys.
Proof.
  revert ys; induction l as [|x l IH]; intros ys H; simpl in H.
  - injection H as <-; constructor.
  - destruct (f x) as [y|e] eqn:Ef; simpl in H; [|discriminate].
    destruct (map_res f l) as [ys'|e] eqn:El; simpl in H; [|discriminate].
    injection H as <-; constructor; auto.
Qed.

Lemma concat_res_Forall2 {A B C} (g : B -> result (list C)) (h : A -> list C)
    (l : list A) (ys : list B) :
  Forall2 (fun x y => g y = Ok (h x)) l ys -> concat_res g ys = Ok (flat_map h l).
Proof. induction 1 as [|x y l ys Hxy _ IH]; simpl; [reflexivity|]. rewrite Hxy, IH; reflexivity. Qed.

Lemma Forall2_impl' {A B} (P Q : A -> B -> Prop) (l : list A) (ys : list B) :
  (forall x y, P x y -> Q x y) -> Forall2 P l ys -> Forall2 Q l ys.
Proof. intros H; induction 1; constructor; auto. Qed.

(** The egress rule [convert_rules] builds for one entry. *)
Lemma egress_rule_of_value (e x : value) :
  egress_rule_of e = Ok x ->
  exists kvs d p q, e = VDict kvs /\ lookup "dest" kvs = Some d
    /\ lookup "port" kvs = Some p /\ lookup "proto" kvs = Some (VStr q)
    /\ x = VDict [("toEndpoints", VList [VDict [("matchLabels", VDict [("app", d)])]]);
                 ("toPorts", VList [VDict [("ports",
                    VList [VDict [("port", VStr (py_str p)); ("protocol", VStr (upper q))]])]])].
Proof.
  unfold egress_rule_of; intros H.
  destruct e as [| | | | |kvs]; simpl in H; try discriminate.
  destruct (lookup "dest" kvs) as [d|] eqn:Ed; simpl in H; try discriminate.
  destruct (lookup "port" kvs) as [pt|] eqn:Ep; simpl in H; try discriminate.
  destruct (lookup "proto" kvs) as [[| | | q | |]|] eqn:Eq; simpl in H; try discriminate.
  injection H as <-; exists kvs, d, pt, q; auto 10.
Qed.

(** The document [convert_rules] builds, from its groups. *)
Lemma convert_rules_groups (rules : list value) (doc : value) :
  convert_rules (VList rules) = Ok doc ->
  exists groups specs, group_rules rules [] = Ok groups
    /\ map_res spec_of groups = Ok specs
    /\ doc = VDict (header ++ [("specs", VList specs)]).
Proof.
  unfold convert_rules; simpl.
  destruct (group_rules rules []) as [groups|e] eqn:Eg; simpl; [|discriminate].
  destruct (map_res spec_of groups) as [specs|e] eqn:Em; simpl; [|discriminate].
  intros H; injection H as <-; exists groups, specs; auto.
Qed.

(** The PolicySpec [convert_rules] builds for one group. *)
Lemma spec_of_value (g : value * list value) (sp : value) :
  spec_of g = Ok sp ->
  exists ers, map_res egress_rule_of (snd g) = Ok ers
    /\ sp = VDict [("endpointSelector", VDict [("matchLabels", VDict [("app", fst g)])]);
                   ("egress", VList ers)].
Proof.
  unfold spec_of.
  destruct (map_res egress_rule_of (snd g)) as [ers|e]; simpl; [|discriminate].
  intros H; injection H as <-; exists ers; auto.
Qed.

End ConvertedFacts.

Module ConvertedRules.
Import Converter ConverterFacts PolicyMatch ConvertedView ConvertedFacts TesterRules.

Lemma map_as_flat_map {A B} (f : A -> B) (l : list A) :
  map f l = flat_map (fun x => [f x]) l.
Proof. induction l; simpl; congruence. Qed.

(** The specs [Tester.select_specs] finds in a converted policy. *)
Lemma tester_select_converted (specs : list value) :
  (ss <- (sp <- Tester.select_specs (VDict (header ++ [("specs", VList specs)])) ;; py_iter sp) ;;
   Ok ss) = Ok specs.
Proof. destruct specs; reflexivity. Qed.

Lemma extract_rules_converted_aux (doc : value) (rs : list value) :
  convert_rules (VList rs) = Ok doc ->
  exists groups, group_rules rs [] = Ok groups /\
  _extract_rules doc =
    Ok (flat_map (fun g => map (fun e => rule_of (py_or (fst g) (VStr "unknown"))
                                              (py_or (rule_dest e) (VStr "unknown"))
                                              (rule_port e)) (snd g)) groups).
Proof.
  intros H.
  destruct (convert_rules_groups _ _ H) as (groups & specs & Eg & Em & ->).
  exists groups; split; [exact Eg|].
  unfold _extract_rules.
  assert (Hs : concat_res spec_rules specs =
    Ok (flat_map (fun g => map (fun e => rule_of (py_or (fst g) (VStr "unknown"))
                                              (py_or (rule_dest e) (VStr "unknown"))
                                              (rule_port e)) (snd g)) groups)).
  { apply concat_res_Forall2.
    eapply Forall2_impl'; [|exact (map_res_Forall2 _ _ _ Em)].
    intros g sp Hg; cbv beta in Hg |- *.
    destruct (spec_of_value _ _ Hg) as (ers & Ee & ->).
    unfold spec_rules; simpl.
    rewrite map_as_flat_map.
    apply concat_res_Forall2.
    eapply Forall2_impl'; [|exact (map_res_Forall2 _ _ _ Ee)].
    intros e x Hx; cbv beta in Hx |- *.
    destruct (egress_rule_of_value _ _ Hx) as (kvs & d & p & q & -> & Hd & Hp & Hq & ->).
    unfold rule_dest, rule_port; simpl; rewrite Hd, Hp; reflexivity. }
  destruct specs as [|sp specs]; simpl in *; [exact Hs|].
  exact Hs.
Qed.

End ConvertedRules.

Module ConvertedConnections.
Import Converter ConverterFacts PolicyMatch ConvertedView ConvertedFacts ConvertedRules Visualizer.

Lemma extract_connections_converted_aux (doc : value) (rs : list value) :
  convert_rules (VList rs) = Ok doc ->
  exists groups, group_rules rs [] = Ok groups /\
  _extract_connections doc =
    Ok (flat_map (fun g => map (fun e => connection (py_or (fst g) (VStr "unknown-source"))
                                                (py_or (rule_dest e) (VStr "unknown-dest"))
                                                (rule_port e) (rule_proto e)) (snd g)) groups).
Proof.
  intros H.
  destruct (convert_rules_groups _ _ H) as (groups & specs & Eg & Em & ->).
  exists groups; split; [exact Eg|].
  unfold _extract_connections.
  assert (Hs : concat_res ext_spec specs =
    Ok (flat_map (fun g => map (fun e => connection (py_or (fst g) (VStr "unknown-source"))
                                                (py_or (rule_dest e) (VStr "unknown-dest"))
                                                (rule_port e) (rule_proto e)) (snd g)) groups)).
  { apply concat_res_Forall2.
    eapply Forall2_impl'; [|exact (map_res_Forall2 _ _ _ Em)].
    intros g sp Hg; cbv beta in Hg |- *.
    destruct (spec_of_value _ _ Hg) as (ers & Ee & ->).
    unfold ext_spec; simpl.
    rewrite map_as_flat_map.
    apply concat_res_Forall2.
    eapply Forall2_impl'; [|exact (map_res_Forall2 _ _ _ Ee)].
    intros e x Hx; cbv beta in Hx |- *.
    destruct (egress_rule_of_value _ _ Hx) as (kvs & d & p & q & -> & Hd & Hp & Hq & ->).
    unfold rule_dest, rule_port, rule_proto; simpl; rewrite Hd, Hp, Hq; reflexivity. }
  destruct specs as [|sp specs]; simpl in *; [exact Hs|].
  exact Hs.
Qed.

End ConvertedConnections.

Module GroupFacts.
Import Converter PolicyMatch.

(** Each member of a group is a rule of the input whose [src] equals the
    group's key. *)
Definition member_ok (rs : list value) (k e : value) : Prop :=
  In e rs /\ exists kvs s, e = VDict kvs /\ lookup "src" kvs = Some s /\ py_key_eq k s = true.

Definition groups_ok (rs : list value) (groups : list (value * list value)) : Prop :=
  forall g e, In g groups -> In e (snd g) -> member_ok rs (fst g) e.

Lemma py_key_eq_refl (v : value) : hashable v = true -> py_key_eq v v = true.
Proof.
  destruct v; simpl; intros H; try discriminate; try reflexivity.
  - apply eqb_reflx.
  - apply Z.eqb_refl.
  - apply String.eqb_refl.
Qed.

Lemma add_to_group_ok (rs : list value) (key r : value) (groups : list (value * list value)) :
  groups_ok rs groups -> member_ok rs key r -> groups_ok rs (add_to_group key r groups).
Proof.
  intros Hg Hr.
  induction groups as [|[k es] groups IH]; simpl.
  - intros g e [<-|[]] [<-|[]]; exact Hr.
  - destruct (py_key_eq k key) eqn:Ek.
    + intros g e [<-|Hin] He; simpl in *.
      * apply in_app_or in He; destruct He as [He|[<-|[]]].
        -- apply (Hg (k, es) e); simpl; auto.
        -- destruct Hr as [Hin (kvs & s & -> & Hs & Hks)].
           split; [exact Hin|]; exists kvs, s; split; [reflexivity|split; [exact Hs|]].
           destruct k, key, s; simpl in *; try discriminate;
             repeat match goal with
                    | H : Bool.eqb _ _ = true |- _ => apply eqb_prop in H; subst
                    | H : Z.eqb _ _ = true |- _ => apply Z.eqb_eq in H; subst
                    | H : String.eqb _ _ = true |- _ => apply String.eqb_eq in H; subst
                    end; simpl;
             try reflexivity; try apply eqb_reflx; try apply Z.eqb_refl;
             try apply String.eqb_refl;
             destruct b; try destruct b0; simpl in *; congruence.
      * apply (Hg g e); simpl; auto.
    + intros g e [<-|Hin] He.
      * apply (Hg (k, es) e); simpl; auto.
      * refine (IH _ g e Hin He).
        intros g' e' Hg' He'; apply (Hg g' e'); simpl; auto.
Qed.
Lemma group_rules_groups_ok (rs rules : list value) (groups groups' : list (value * list value)) :
  (forall r, In r rules -> In r rs) -> groups_ok rs groups ->
  group_rules rules groups = Ok groups' -> groups_ok rs groups'.
Proof.
  revert groups; induction rules as [|r rules IH]; intros groups Hsub Hg H; simpl in H.
  - injection H as <-; exact Hg.
  - destruct r as [| | | | |kvs]; simpl in H; try discriminate.
    destruct (lookup "src" kvs) as [src|] eqn:Es; simpl in H; try discriminate.
    destruct (hashable src) eqn:Eh; try discriminate.
    refine (IH _ (fun r Hr => Hsub r (or_intror Hr)) _ H).
    apply add_to_group_ok; [exact Hg|].
    split; [apply Hsub; left; reflexivity|].
    exists kvs, src; split; [reflexivity|split; [exact Es|apply py_key_eq_refl, Eh]].
Qed.

Lemma py_key_eq_truthy (a b : value) : py_key_eq a b = true -> truthy a = truthy b.
Proof.
  destruct a, b; simpl; intros H; try discriminate; try reflexivity;
    repeat match goal with
           | H : Bool.eqb _ _ = true |- _ => apply eqb_prop in H; subst
           | H : Z.eqb _ _ = true |- _ => apply Z.eqb_eq in H; subst
           | H : String.eqb _ _ = true |- _ => apply String.eqb_eq in H; subst
           end; try reflexivity;
    repeat match goal with x : bool |- _ => destruct x end; reflexivity.
Qed.

Lemma convert_groups_ok (rs : list value) (groups : list (value * list value)) :
  group_rules rs [] = Ok groups -> groups_ok rs groups.
Proof.
  intros H; apply (group_rules_groups_ok rs rs [] groups); auto.
  intros g e [].
Qed.
End GroupFacts.

(** Which rule [convert_rules] fails on, and with which exception. *)
Module ConverterErrors.
Import Converter ConverterSpec ConverterFacts GroupFacts Examples.

Lemma map_res_exc {A B} (f : A -> result B) (l : list A) (e : exn) :
  map_res f l = Exc e -> exists x, In x l /\ f x = Exc e.
Proof.
  induction l as [|x l IH]; simpl; [discriminate|].
  destruct (f x) as [y|e'] eqn:Ef; simpl.
  - destruct (map_res f l) as [ys|e'] eqn:El; simpl; [discriminate|].
    intros H; injection H as ->; destruct (IH eq_refl) as (x' & Hx' & Hf).
    exists x'; split; [right; exact Hx' | exact Hf].
  - intros H; injection H as ->; exists x; split; [left; reflexivity | exact Ef].
Qed.

(** The grouping pass fails only on a rule that is not a mapping, lacks
    [src] or has an unhashable [src]. *)
Lemma group_rules_exc (rs : list value) (groups : list (value * list value)) (e : exn) :
  group_rules rs groups = Exc e ->
  exists r, In r rs /\ rule_wellformed r = false /\ rule_error r e.
Proof.
  revert groups; induction rs as [|r rs IH]; intros groups H; simpl in H; [discriminate|].
  destruct r as [| | | | |kvs]; simpl in H;
    try (injection H as <-; eexists; split; [left; reflexivity | split; reflexivity]).
  destruct (lookup "src" kvs) as [src|] eqn:Es; simpl in H.
  - destruct (hashable src) eqn:Eh.
    + destruct (IH _ H) as (r & Hr & Hw & He).
      exists r; split; [right; exact Hr | split; assumption].
    + injection H as <-; exists (VDict kvs); split; [left; reflexivity|split].
      * simpl; rewrite Es; destruct (lookup "dest" kvs), (lookup "port" kvs);
          try reflexivity; destruct (lookup "proto" kvs) as [[]|]; assumption || reflexivity.
      * right; left; exists src; auto.
  - injection H as <-; exists (VDict kvs); split; [left; reflexivity|split].
    + simpl; rewrite Es; reflexivity.
    + left; exists "src"; split; [left; reflexivity | auto].
Qed.

(** Building an egress rule fails only on a missing [dest], [port] or
    [proto], or a non-string [proto]. *)
Lemma egress_rule_of_exc (kvs : list (string * value)) (e : exn) :
  egress_rule_of (VDict kvs) = Exc e ->
  rule_wellformed (VDict kvs) = false /\ rule_error (VDict kvs) e.
Proof.
  unfold egress_rule_of; simpl.
  destruct (lookup "dest" kvs) as [d|] eqn:Ed; simpl.
  2:{ intros H; injection H as <-; split.
      - destruct (lookup "src" kvs); reflexivity.
      - left; exists "dest"; split; [right; left; reflexivity | auto]. }
  destruct (lookup "port" kvs) as [p|] eqn:Ep; simpl.
  2:{ intros H; injection H as <-; split.
      - destruct (lookup "src" kvs); reflexivity.
      - left; exists "port"; split; [right; right; left; reflexivity | auto]. }
  destruct (lookup "proto" kvs) as [q|] eqn:Eq; simpl.
  2:{ intros H; injection H as <-; split.
      - destruct (lookup "src" kvs); reflexivity.
      - left; exists "proto"; split; [right; right; right; left; reflexivity | auto]. }
  destruct q as [| | |q| |]; simpl; try discriminate;
    intros H; injection H as <-; (split;
      [destruct (lookup "src" kvs); reflexivity
      |right; right; eexists; split; [reflexivity | split; [intros q' Hq'; discriminate Hq' | reflexivity]]]).
Qed.

(** C8 (amended). There is no dedicated conversion error.  If some rule
    of the list is not a mapping, lacks [src], [dest], [port] or
    [proto], has an unhashable [src] or a non-string [proto], no
    document is produced: the conversion raises, for one such rule,
    [KeyError] carrying the missing key (not the rule's index),
    [TypeError] for a non-mapping or unhashable [src], or
    [AttributeError] for a non-string [proto].  The empty list yields a
    document with an empty [specs] list. *)
Theorem convert_error_causes (rules : list value) :
  (exists r, In r rules /\ rule_wellformed r = false) ->
  (exists r e, In r rules /\ rule_wellformed r = false /\ rule_error r e
               /\ convert_rules (VList rules) = Exc e)
  /\ convert_rules (VList [])
     = Ok (VDict [("apiVersion", VStr "cilium.io/v2");
                  ("kind", VStr "CiliumNetworkPolicy");
                  ("metadata", VDict [("name", VStr "generated-policy")]);
                  ("specs", VList [])]).
Proof.
  intros (r0 & Hr0 & Hbad); split; [|reflexivity].
  destruct (group_rules rules []) as [groups|e] eqn:Eg.
  - destruct (map_res spec_of groups) as [specs|e] eqn:Em.
    + assert (Hc : convert_rules (VList rules) = Ok (VDict (header ++ [("specs", VList specs)])))
        by (unfold convert_rules; simpl; rewrite Eg; simpl; rewrite Em; reflexivity).
      rewrite (convert_rules_ok_wellformed rules _ Hc r0 Hr0) in Hbad; discriminate.
    + destruct (map_res_exc spec_of groups e Em) as (g & Hg & Hs).
      unfold spec_of in Hs.
      destruct (map_res egress_rule_of (snd g)) as [ers|e'] eqn:Ee; simpl in Hs; [discriminate|].
      injection Hs as <-.
      destruct (map_res_exc egress_rule_of (snd g) e' Ee) as (x & Hx & Hxe).
      destruct (convert_groups_ok rules groups Eg g x Hg Hx) as [Hin (kvs & s & -> & _ & _)].
      destruct (egress_rule_of_exc kvs e' Hxe) as [Hw He].
      exists (VDict kvs), e'; split; [exact Hin | split; [exact Hw | split; [exact He|]]].
      unfold convert_rules; simpl; rewrite Eg; simpl; rewrite Em; reflexivity.
  - destruct (group_rules_exc rules [] e Eg) as (r & Hr & Hw & He).
    exists r, e; split; [exact Hr | split; [exact Hw | split; [exact He|]]].
    unfold convert_rules; simpl; rewrite Eg; reflexivity.
Qed.

(** C8 (witness): the second rule lacks [dest]; the conversion raises
    [KeyError('dest')]. *)
Lemma convert_error_causes_witness :
  convert_rules (VList dest_missing_rules) = Exc (PyExc "KeyError" "'dest'") /\
  (exists r e, In r dest_missing_rules /\ rule_wellformed r = false /\ rule_error r e
               /\ convert_rules (VList dest_missing_rules) = Exc e)
  /\ convert_rules (VList [])
     = Ok (VDict [("apiVersion", VStr "cilium.io/v2");
                  ("kind", VStr "CiliumNetworkPolicy");
                  ("metadata", VDict [("name", VStr "generated-policy")]);
                  ("specs", VList [])]).
Proof.
  split; [vm_compute; reflexivity|].
  apply convert_error_causes.
  exists (VDict [("src", VStr "api"); ("port", VInt 5432); ("proto", VStr "tcp")]).
  split; [right; left; reflexivity | reflexivity].
Defined.

End ConverterErrors.

Module OverlayFacts.
Import Converter PolicyMatch ConvertedView ConvertedFacts GroupFacts Overlay
       TesterRules Visualizer.

Lemma map_res_Forall2_eq {A B C} (f : A -> result C) (g : B -> result C)
    (l1 : list A) (l2 : list B) :
  Forall2 (fun a b => f a = g b) l1 l2 -> map_res f l1 = map_res g l2.
Proof. induction 1 as [|a b l1 l2 Hab _ IH]; simpl; [reflexivity|]. rewrite Hab, IH; reflexivity. Qed.

Lemma Forall2_flat_map_map {A B C} (R : B -> C -> Prop) (L : list A)
    (sel : A -> list value) (F : A -> value -> B) (G : A -> value -> C) :
  (forall g e, In g L -> In e (sel g) -> R (F g e) (G g e)) ->
  Forall2 R (flat_map (fun g => map (F g) (sel g)) L) (flat_map (fun g => map (G g) (sel g)) L).
Proof.
  induction L as [|g L IH]; intros H; simpl; [constructor|].
  apply Forall2_app.
  - assert (Hg : forall e, In e (sel g) -> R (F g e) (G g e)) by (intros; apply H; simpl; auto).
    clear H IH; induction (sel g) as [|e l IHl]; simpl; constructor.
    + apply Hg; left; reflexivity.
    + apply IHl; intros; apply Hg; right; assumption.
  - apply IH; intros; apply H; simpl; auto.
Qed.

Lemma conn_key_connection (a b c d : value) :
  conn_key (connection a b c d) = Ok (a, b, py_str c).
Proof. reflexivity. Qed.

Lemma result_key_rule (a b c : value) : result_key (rule_of a b c) = Ok (a, b, py_str c).
Proof. reflexivity. Qed.

End OverlayFacts.

(* ================================================================= *)
(** ** Further properties of the code *)

Module RoundTrip.
Import Converter PolicyMatch ConvertedView ConvertedFacts ConvertedRules ConvertedConnections
       GroupFacts Overlay OverlayFacts TesterRules Visualizer Examples.

(** The rules [_extract_rules] reads back from a converted policy: one
    per input rule, grouped by [src] in the order [convert_rules] groups
    them, with [src] and [dest] as given (["unknown"] when falsy) and the
    port as [str(port)]. *)
Theorem extract_rules_of_converted (rs : list value) (doc : value)
    (H : convert_rules (VList rs) = Ok doc) :
  exists groups, group_rules rs [] = Ok groups /\
  _extract_rules doc =
    Ok (flat_map (fun g => map (fun e => rule_of (py_or (fst g) (VStr "unknown"))
                                              (py_or (rule_dest e) (VStr "unknown"))
                                              (rule_port e)) (snd g)) groups).
Proof. exact (extract_rules_converted_aux doc rs H). Qed.

Lemma extract_rules_of_converted_witness :
  exists doc, convert_rules (VList grouping_rules) = Ok doc /\
  _extract_rules doc = Ok [rule_of (VStr "frontend") (VStr "backend") (VStr "80");
                           rule_of (VStr "frontend") (VStr "cache") (VStr "6379");
                           rule_of (VStr "api") (VStr "db") (VStr "5432")] /\
  exists groups, group_rules grouping_rules [] = Ok groups /\
  _extract_rules doc =
    Ok (flat_map (fun g => map (fun e => rule_of (py_or (fst g) (VStr "unknown"))
                                              (py_or (rule_dest e) (VStr "unknown"))
                                              (rule_port e)) (snd g)) groups).
Proof.
  eexists; split; [vm_compute; reflexivity|].
  split; [vm_compute; reflexivity|].
  apply extract_rules_of_converted; vm_compute; reflexivity.
Defined.

(** The connections [_extract_connections] reads back from a converted
    policy: one per input rule, grouped by [src] in the converter's
    order, with [src] and [dest] as given (["unknown-source"] and
    ["unknown-dest"] when falsy), the port as [str(port)] and the
    protocol as [proto.upper()]. *)
Theorem extract_connections_of_converted (rs : list value) (doc : value)
    (H : convert_rules (VList rs) = Ok doc) :
  exists groups, group_rules rs [] = Ok groups /\
  _extract_connections doc =
    Ok (flat_map (fun g => map (fun e => connection (py_or (fst g) (VStr "unknown-source"))
                                                (py_or (rule_dest e) (VStr "unknown-dest"))
                                                (rule_port e) (rule_proto e)) (snd g)) groups).
Proof. exact (extract_connections_converted_aux doc rs H). Qed.

Lemma extract_connections_of_converted_witness :
  exists doc, convert_rules (VList grouping_rules) = Ok doc /\
  _extract_connections doc =
    Ok [connection (VStr "frontend") (VStr "backend") (VStr "80") (VStr "TCP");
        connection (VStr "frontend") (VStr "cache") (VStr "6379") (VStr "UDP");
        connection (VStr "api") (VStr "db") (VStr "5432") (VStr "TCP")] /\
  exists groups, group_rules grouping_rules [] = Ok groups /\
  _extract_connections doc =
    Ok (flat_map (fun g => map (fun e => connection (py_or (fst g) (VStr "unknown-source"))
                                                (py_or (rule_dest e) (VStr "unknown-dest"))
                                                (rule_port e) (rule_proto e)) (snd g)) groups).
Proof.
  eexists; split; [vm_compute; reflexivity|].
  split; [vm_compute; reflexivity|].
  apply extract_connections_of_converted; vm_compute; reflexivity.
Defined.

(** For a converted policy whose rules all have a truthy [src] and
    [dest], the overlay key [visualize_policy] computes for each
    connection is, in order, the key [_load_test_results] computes for
    the corresponding test rule ([run_mock_tests] copies [src], [dest]
    and [port] from [_extract_rules]). *)
Theorem overlay_keys_converted (rs : list value) (doc : value)
    (H : convert_rules (VList rs) = Ok doc)
    (Ht : forall r, In r rs ->
          truthy (opt_val (dict_lookup r "src")) = true /\ truthy (rule_dest r) = true) :
  (conns <- _extract_connections doc ;; map_res conn_key conns)
  = (rules <- _extract_rules doc ;; map_res result_key rules).
Proof.
  destruct (extract_connections_converted_aux doc rs H) as (g1 & E1 & ->).
  destruct (extract_rules_converted_aux doc rs H) as (g2 & E2 & ->).
  rewrite E1 in E2; injection E2 as <-; simpl.
  apply map_res_Forall2_eq, Forall2_flat_map_map.
  intros g e Hg He.
  rewrite conn_key_connection, result_key_rule.
  destruct (convert_groups_ok rs g1 E1 g e Hg He) as [Hin (kvs & s & -> & Hs & Hk)].
  destruct (Ht _ Hin) as [Hsrc Hdest].
  simpl in Hsrc; rewrite Hs in Hsrc; simpl in Hsrc.
  unfold py_or; rewrite (py_key_eq_truthy _ _ Hk), Hsrc, Hdest; reflexivity.
Qed.

Lemma overlay_keys_converted_witness :
  exists doc, convert_rules (VList grouping_rules) = Ok doc /\
  (rules <- _extract_rules doc ;; map_res result_key rules)
  = Ok [(VStr "frontend", VStr "backend", "80"); (VStr "frontend", VStr "cache", "6379");
        (VStr "api", VStr "db", "5432")] /\
  (conns <- _extract_connections doc ;; map_res conn_key conns)
  = (rules <- _extract_rules doc ;; map_res result_key rules).
Proof.
  eexists; split; [vm_compute; reflexivity|].
  split; [vm_compute; reflexivity|].
  apply (overlay_keys_converted grouping_rules).
  - vm_compute; reflexivity.
  - intros r Hr; simpl in Hr; destruct Hr as [<-|[<-|[<-|[]]]]; split; reflexivity.
Defined.

End RoundTrip.

(** ** The schema on converted policies *)

Module SchemaFacts.
Import Schema ConvertedSchema.

Lemma app_nil_iff {A} (l m : list A) : app l m = [] <-> l = [] /\ m = [].
Proof. destruct l; simpl; [tauto|]. split; [discriminate|intros [H _]; discriminate]. Qed.

(** The local loop of [kw_errors] over a sub-schema is [errs_in]. *)
Lemma errs_of_eq (s0 : schema) (l : schema) (x : value) (p : list pelem) :
  (fix go (l : list kw) : list err :=
     match l with
     | [] => []
     | k' :: rest => app (kw_errors k' (props_of s0) x p) (go rest)
     end) l = errs_in l (props_of s0) x p.
Proof. induction l as [|k l IH]; simpl; [reflexivity|]. rewrite IH; reflexivity. Qed.

Lemma kw_properties_eq ps props kvs p :
  kw_errors (KProperties ps) props (VDict kvs) p =
  flat_map (fun ns => match lookup (fst ns) kvs with
                      | Some x => errs_in (snd ns) (props_of (snd ns)) x (app p [PKey (fst ns)])
                      | None => []
                      end) ps.
Proof.
  induction ps as [|[name sub] ps IH]; [reflexivity|].
  cbn [flat_map fst snd]. rewrite <- IH.
  cbn [kw_errors].
  f_equal.
  destruct (lookup name kvs); [apply errs_of_eq | reflexivity].
Qed.

Lemma kw_items_eq sub props l p :
  kw_errors (KItems sub) props (VList l) p = items_errs sub p 0 l.
Proof.
  cbn [kw_errors]. generalize 0.
  induction l as [|x l IH]; intros i; [reflexivity|].
  cbn [items_errs]. rewrite <- IH. f_equal. apply errs_of_eq.
Qed.

Lemma array_items_eq sub props l p :
  errs_in [KType "array"; KItems sub] props (VList l) p = items_errs sub p 0 l.
Proof. cbn [errs_in]. rewrite kw_items_eq. simpl. apply app_nil_r. Qed.

(** A list is valid under [items] iff each item is, whatever its path. *)
Lemma items_errs_nil {A} sub (R : A -> value -> Prop) (P : A -> Prop) p i (xs : list A) l :
  Forall2 R xs l ->
  (forall a x q, R a x -> (errs_in sub (props_of sub) x q = [] <-> P a)) ->
  (items_errs sub p i l = [] <-> Forall P xs).
Proof.
  intros HR HP; revert i; induction HR as [|a x xs l Hax _ IH]; intros i; simpl.
  - split; constructor.
  - rewrite app_nil_iff, (HP a x _ Hax), (IH (S i)).
    split; [intros [Ha Hs]; constructor; assumption | intros Hf; inversion Hf; auto].
Qed.

End SchemaFacts.

Module ConvertedSchemaFacts.
Import Schema Validator Converter PolicyMatch ConvertedView ConvertedSchema ConvertedFacts
       GroupFacts SchemaFacts.

Lemma egress_errs_nil d pt q p :
  errs_in EgressRule (props_of EgressRule) (egress_value d pt (VStr q)) p = [] <->
  is_type d "string" = true /\ existsb (String.eqb q) protocols = true.
Proof.
  unfold egress_value, EgressRule; cbn [existsb protocols]; simpl.
  rewrite !app_nil_r.
  destruct (is_type d "string"); simpl;
    [|split; [intros H; discriminate H | intros [H _]; discriminate H]].
  match goal with |- context [if ?b then _ else _] => destruct b end; simpl;
    split; intros H; try discriminate H; try tauto; destruct H; discriminate.
Qed.

Lemma spec_errs_nil k ers p :
  errs_in CiliumNetworkPolicySpec (props_of CiliumNetworkPolicySpec) (spec_value k ers) p = [] <->
  is_type k "string" = true /\ items_errs EgressRule (app p [PKey "egress"]) 0 ers = [].
Proof.
  unfold CiliumNetworkPolicySpec, spec_value. cbn [errs_in].
  rewrite kw_properties_eq. cbn [flat_map fst snd].
  cbv [lookup String.eqb Ascii.eqb Bool.eqb].
  rewrite array_items_eq.
  simpl. rewrite !app_nil_r.
  destruct (is_type k "string"); simpl; [tauto|].
  split; [intros H; discriminate H | intros [H _]; discriminate H].
Qed.

(** The only errors a converted document can have are those of its specs. *)
Lemma root_errs specs :
  iter_errors CILIUM_NETWORK_POLICY_SCHEMA (VDict (header ++ [("specs", VList specs)])) =
  items_errs CiliumNetworkPolicySpec [PKey "specs"] 0 specs.
Proof.
  unfold iter_errors, CILIUM_NETWORK_POLICY_SCHEMA. cbn [errs_in].
  rewrite kw_properties_eq. cbn [flat_map fst snd].
  cbv [lookup header app String.eqb Ascii.eqb Bool.eqb].
  rewrite array_items_eq.
  simpl.
  exact (eq_trans (app_nil_r _) (app_nil_r _)).
Qed.

Lemma validate_nil_iff data :
  validate_cilium_schema data = [] <-> iter_errors CILIUM_NETWORK_POLICY_SCHEMA data = [].
Proof.
  unfold validate_cilium_schema.
  destruct (iter_errors CILIUM_NETWORK_POLICY_SCHEMA data) as [|e l] eqn:E.
  - split; reflexivity.
  - split; [|discriminate]. intros H.
    apply map_eq_nil in H.
    assert (Hin : In e (sort_errors (e :: l)))
      by (apply ValidatorFacts.sort_errors_in; left; reflexivity).
    rewrite H in Hin; destruct Hin.
Qed.

Lemma spec_group_nil g sp q :
  spec_of g = Ok sp ->
  (errs_in CiliumNetworkPolicySpec (props_of CiliumNetworkPolicySpec) sp q = [] <-> group_ok g).
Proof.
  intros Hg; destruct (spec_of_value g sp Hg) as (ers & Hers & ->).
  change (VDict _) with (spec_value (fst g) ers).
  rewrite spec_errs_nil; unfold group_ok.
  rewrite (items_errs_nil EgressRule (fun e er => egress_rule_of e = Ok er) egress_ok _ 0 (snd g) ers
             (map_res_Forall2 _ _ _ Hers)); [reflexivity|].
  intros e er q' He.
  destruct (egress_rule_of_value e er He) as (kvs & d & pt & pq & -> & Hd & Hp & Hq & ->).
  change (errs_in EgressRule (props_of EgressRule)
            (egress_value d (py_str pt) (VStr (upper pq))) q' = [] <-> egress_ok (VDict kvs)).
  rewrite egress_errs_nil; unfold egress_ok, proto_listed, rule_dest, rule_proto; simpl.
  rewrite Hd, Hq; reflexivity.
Qed.

(** Every rule of the input lands in some group ... *)
Lemma add_to_group_covers key r groups e :
  (e = r \/ exists g, In g groups /\ In e (snd g)) ->
  exists g, In g (add_to_group key r groups) /\ In e (snd g).
Proof.
  induction groups as [|[k es] groups IH]; simpl; intros He.
  - destruct He as [->|(g & [] & _)]. exists (key, [r]); simpl; auto.
  - destruct (py_key_eq k key).
    + destruct He as [->|(g & [<-|Hg] & Hin)].
      * exists (k, es ++ [r]); simpl; split; [auto|apply in_or_app; simpl; auto].
      * exists (k, es ++ [r]); simpl; split; [auto|apply in_or_app; auto].
      * exists g; simpl; auto.
    + destruct He as [->|(g & [<-|Hg] & Hin)].
      * destruct (IH (or_introl eq_refl)) as (g & Hg & Hin); exists g; simpl; auto.
      * exists (k, es); simpl; auto.
      * destruct (IH (or_intror (ex_intro _ g (conj Hg Hin)))) as (g' & Hg' & Hin').
        exists g'; simpl; auto.
Qed.

Lemma group_rules_covers rules groups groups' e :
  group_rules rules groups = Ok groups' ->
  (In e rules \/ exists g, In g groups /\ In e (snd g)) ->
  exists g, In g groups' /\ In e (snd g).
Proof.
  revert groups; induction rules as [|r rules IH]; intros groups H He; simpl in H.
  - injection H as <-. destruct He as [[]|He]; exact He.
  - destruct (py_getitem r "src") as [src|x]; simpl in H; [|discriminate].
    destruct (hashable src); [|discriminate].
    apply (IH _ H).
    destruct He as [[->|Hin]|He]; [right|left; exact Hin|right];
      apply add_to_group_covers; auto.
Qed.

(** ... and no group is empty. *)
Lemma add_to_group_nonempty key r groups :
  (forall g, In g groups -> snd g <> []) ->
  forall g, In g (add_to_group key r groups) -> snd g <> [].
Proof.
  induction groups as [|[k es] groups IH]; simpl; intros Hne g Hg.
  - destruct Hg as [<-|[]]; discriminate.
  - destruct (py_key_eq k key); simpl in Hg.
    + destruct Hg as [<-|Hg]; [simpl; destruct es; discriminate|auto].
    + destruct Hg as [<-|Hg]; [apply (Hne (k, es)); auto|].
      apply (IH (fun g' Hg' => Hne g' (or_intror Hg')) g Hg).
Qed.

Lemma group_rules_nonempty rules groups groups' :
  group_rules rules groups = Ok groups' ->
  (forall g, In g groups -> snd g <> []) ->
  forall g, In g groups' -> snd g <> [].
Proof.
  revert groups; induction rules as [|r rules IH]; intros groups H Hne; simpl in H.
  - injection H as <-; exact Hne.
  - destruct (py_getitem r "src") as [src|x]; simpl in H; [|discriminate].
    destruct (hashable src); [|discriminate].
    exact (IH _ H (add_to_group_nonempty src r groups Hne)).
Qed.

Lemma py_key_eq_string a b : py_key_eq a b = true -> is_type a "string" = is_type b "string".
Proof. destruct a, b; simpl; intros H; try discriminate; reflexivity. Qed.

Lemma groups_rules_ok rs groups :
  group_rules rs [] = Ok groups ->
  (Forall group_ok groups <-> Forall rule_schema_ok rs).
Proof.
  intros Eg.
  pose proof (convert_groups_ok rs groups Eg) as Hok.
  rewrite !Forall_forall; split.
  - intros Hg r Hr.
    destruct (group_rules_covers rs [] groups r Eg (or_introl Hr)) as (g & Hin & Hrg).
    destruct (Hg g Hin) as [Hk He]; rewrite Forall_forall in He.
    split; [|exact (He r Hrg)].
    destruct (Hok g r Hin Hrg) as [_ (kvs & s & -> & Hs & Hks)].
    simpl; rewrite Hs; simpl; rewrite <- (py_key_eq_string _ _ Hks); exact Hk.
  - intros Hr g Hin.
    assert (Hne : snd g <> [])
      by exact (group_rules_nonempty rs [] groups Eg (fun _ h => match h with end) g Hin).
    split.
    + destruct (snd g) as [|e0 es] eqn:Es; [congruence|].
      assert (H0 : In e0 (snd g)) by (rewrite Es; left; reflexivity).
      destruct (Hok g e0 Hin H0) as [Hin0 (kvs & s & -> & Hs & Hks)].
      destruct (Hr _ Hin0) as [Hsrc _]; simpl in Hsrc; rewrite Hs in Hsrc; simpl in Hsrc.
      rewrite (py_key_eq_string _ _ Hks); exact Hsrc.
    + rewrite Forall_forall; intros e He.
      destruct (Hok g e Hin He) as [Hin0 _]; exact (proj2 (Hr e Hin0)).
Qed.

Lemma converted_schema_iff rs doc :
  convert_rules (VList rs) = Ok doc ->
  (validate_cilium_schema doc = [] <-> Forall rule_schema_ok rs).
Proof.
  intros H; destruct (convert_rules_groups rs doc H) as (groups & specs & Eg & Es & ->).
  rewrite validate_nil_iff, root_errs, <- (groups_rules_ok rs groups Eg).
  apply (items_errs_nil CiliumNetworkPolicySpec (fun g sp => spec_of g = Ok sp) group_ok
           _ 0 groups specs (map_res_Forall2 _ _ _ Es)).
  intros g sp q Hg; exact (spec_group_nil g sp q Hg).
Qed.

End ConvertedSchemaFacts.

(** ** The validator and the syntax check on converted policies *)

Module ConvertedChecks.
Import Validator Converter ConvertedFacts GroupFacts ConvertedSchemaFacts TesterSyntax ValidatorFacts.

Lemma map_res_nil {A B} (f : A -> result B) l ys :
  map_res f l = Ok ys -> (l = [] <-> ys = []).
Proof.
  intros H; apply map_res_Forall2 in H; destruct H; split; intros E; congruence.
Qed.

Lemma group_rules_nil rs groups :
  group_rules rs [] = Ok groups -> (rs = [] <-> groups = []).
Proof.
  intros H; split; intros E.
  - subst; simpl in H; injection H as <-; reflexivity.
  - destruct rs as [|r rs]; [reflexivity|].
    destruct (group_rules_covers (r :: rs) [] groups r H (or_introl (or_introl eq_refl)))
      as (g & Hg & _).
    subst; destruct Hg.
Qed.

Lemma spec_suggestions_converted hs i g sp :
  spec_of g = Ok sp -> snd g <> [] -> spec_suggestions hs i sp = Ok [].
Proof.
  intros Hg Hne; destruct (spec_of_value g sp Hg) as (ers & Hers & ->).
  assert (Hne' : ers <> []) by (intros E; apply Hne, (map_res_nil _ _ _ Hers), E).
  unfold spec_suggestions; simpl.
  destruct ers; [congruence|]; reflexivity.
Qed.

Lemma enumerate_converted hs groups specs :
  Forall2 (fun g sp => spec_of g = Ok sp) groups specs ->
  (forall g, In g groups -> snd g <> []) ->
  forall i, enumerate_suggestions hs i specs = Ok [].
Proof.
  induction 1 as [|g sp groups specs Hg _ IH]; intros Hne i; [reflexivity|].
  simpl. rewrite (spec_suggestions_converted hs i g sp Hg (Hne g (or_introl eq_refl))).
  simpl. rewrite IH; [reflexivity|]. intros g' Hg'; apply Hne; right; exact Hg'.
Qed.

Lemma generate_suggestions_converted_aux rs doc :
  convert_rules (VList rs) = Ok doc -> generate_suggestions doc = Ok [].
Proof.
  intros H; destruct (convert_rules_groups rs doc H) as (groups & specs & Eg & Es & ->).
  pose proof (enumerate_converted true groups specs (map_res_Forall2 _ _ _ Es)
                (group_rules_nonempty rs [] groups Eg (fun _ h => match h with end)) 0) as Hen.
  unfold generate_suggestions; simpl.
  destruct specs; simpl; [reflexivity|].
  simpl in Hen; rewrite Hen; reflexivity.
Qed.

Lemma fold_lint_fields l r :
  yaml_syntax_errors (fold_left add_yaml_lint_warning l r) = yaml_syntax_errors r
  /\ schema_errors (fold_left add_yaml_lint_warning l r) = schema_errors r
  /\ suggestions (fold_left add_yaml_lint_warning l r) = suggestions r
  /\ yaml_lint_warnings (fold_left add_yaml_lint_warning l r) = app (yaml_lint_warnings r) l.
Proof.
  revert r; induction l as [|x l IH]; intros r; simpl.
  - rewrite app_nil_r; auto.
  - destruct (IH (add_yaml_lint_warning r x)) as (H1 & H2 & H3 & H4); simpl in *.
    rewrite H1, H2, H3, H4, <- app_assoc; auto.
Qed.

(** A parsed, truthy document without suggestions: the result holds the
    lint warnings and the schema errors, nothing else. *)
Lemma validate_policy_clean fp d lint :
  truthy d = true -> generate_suggestions d = Ok [] ->
  exists r, validate_policy fp true (true, [], d) lint = Ok r
    /\ yaml_syntax_errors r = [] /\ yaml_lint_warnings r = lint /\ suggestions r = []
    /\ schema_errors r = validate_cilium_schema d.
Proof.
  intros Ht Hs.
  unfold validate_policy; cbv beta iota zeta delta [negb]; rewrite Ht, Hs.
  set (l := validate_cilium_schema d); cbn [bind fold_left].
  eexists; split; [reflexivity|].
  destruct (fold_lint_fields lint new_result) as (H1 & H2 & H3 & H4); simpl in H1, H2, H3, H4.
  rewrite fold_schema_errors, !(fold_field add_schema_error yaml_syntax_errors),
    !(fold_field add_schema_error yaml_lint_warnings), !(fold_field add_schema_error suggestions),
    H1, H2, H3, H4 by reflexivity.
  auto.
Qed.

Lemma validate_policy_converted_aux fp rs doc lint :
  convert_rules (VList rs) = Ok doc ->
  exists r, validate_policy fp true (true, [], doc) lint = Ok r
    /\ yaml_syntax_errors r = [] /\ yaml_lint_warnings r = lint /\ suggestions r = []
    /\ schema_errors r = validate_cilium_schema doc
    /\ (is_valid r = true <-> Forall ConvertedSchema.rule_schema_ok rs).
Proof.
  intros H.
  assert (Ht : truthy doc = true)
    by (destruct (convert_rules_groups rs doc H) as (groups & specs & _ & _ & ->); reflexivity).
  destruct (validate_policy_clean fp doc lint Ht (generate_suggestions_converted_aux rs doc H))
    as (r & Hr & H1 & H2 & H3 & H4).
  exists r; repeat split; auto.
  all: rewrite <- (converted_schema_iff rs doc H), <- H4.
  all: pose proof (ValidatorFacts.validate_policy_inv _ _ _ _ _ Hr) as Hi;
       unfold ValidatorFacts.inv in Hi; rewrite Hi, H1; tauto.
Qed.

Lemma converted_syntax_aux rs doc :
  convert_rules (VList rs) = Ok doc ->
  _validate_policy_syntax (Ok doc) =
    match rs with
    | [] => syntax_failure "No policy specifications found. Expected 'specs' or 'spec' field"
    | _ => mkSyntax true None []
    end.
Proof.
  intros H; destruct (convert_rules_groups rs doc H) as (groups & specs & Eg & Es & ->).
  pose proof (group_rules_nil rs groups Eg) as E1; pose proof (map_res_nil _ _ _ Es) as E2.
  destruct specs as [|sp specs].
  - assert (rs = []) by tauto; subst; reflexivity.
  - destruct rs as [|r rs]; [assert (sp :: specs = []) by tauto; discriminate|].
    reflexivity.
Qed.

End ConvertedChecks.

(** ** What a schema-valid document gives the syntax check *)

Module SchemaSyntax.
Import Schema Validator SchemaFacts ValidatorFacts TesterSyntax.

Lemma errs_in_kw_nil s props v p k :
  errs_in s props v p = [] -> In k s -> kw_errors k props v p = [].
Proof.
  intros H Hk; destruct (kw_errors k props v p) as [|e l] eqn:E; [reflexivity|].
  exfalso; assert (Hin : In e (errs_in s props v p))
    by (apply (errs_in_kw s props v p k e Hk); rewrite E; left; reflexivity).
  rewrite H in Hin; destruct Hin.
Qed.

Lemma schema_valid_root d :
  iter_errors CILIUM_NETWORK_POLICY_SCHEMA d = [] ->
  exists kvs, d = VDict kvs
    /\ lookup "apiVersion" kvs = Some (VStr "cilium.io/v2")
    /\ lookup "kind" kvs = Some (VStr "CiliumNetworkPolicy")
    /\ lookup "metadata" kvs <> None
    /\ (lookup "spec" kvs = None \/ lookup "specs" kvs = None).
Proof.
  unfold iter_errors; intros H.
  pose proof (fun k => errs_in_kw_nil _ _ _ _ k H) as Hk; clear H.
  assert (Ht := Hk (KType "object") ltac:(left; reflexivity)).
  destruct d as [| | | | |kvs]; try discriminate Ht; clear Ht.
  exists kvs; split; [reflexivity|].
  assert (Hr := Hk (KRequired ["apiVersion"; "kind"; "metadata"]) ltac:(right; left; reflexivity)).
  assert (Ho := Hk _ ltac:(right; right; right; left; reflexivity)).
  assert (Hp := Hk _ ltac:(right; right; left; reflexivity)).
  clear Hk.
  rewrite kw_properties_eq in Hp; cbn [flat_map fst snd] in Hp.
  rewrite !app_nil_iff in Hp; destruct Hp as (Ha & Hkd & _).
  simpl in Hr.
  destruct (lookup "apiVersion" kvs) as [a|]; [|discriminate Hr].
  destruct (lookup "kind" kvs) as [k|]; [|discriminate Hr].
  destruct (lookup "metadata" kvs) as [m|]; [|discriminate Hr].
  clear Hr.
  split; [|split; [|split; [discriminate|]]].
  - destruct a; simpl in Ha; try discriminate Ha.
    destruct (String.eqb s "cilium.io/v2") eqn:E; [apply String.eqb_eq in E; subst; reflexivity|].
    simpl in Ha; discriminate Ha.
  - destruct k; simpl in Hkd; try discriminate Hkd.
    destruct (String.eqb s "CiliumNetworkPolicy") eqn:E;
      [apply String.eqb_eq in E; subst; reflexivity|].
    simpl in Hkd; discriminate Hkd.
  - simpl in Ho.
    destruct (lookup "spec" kvs); [|left; reflexivity].
    destruct (lookup "specs" kvs); [|right; reflexivity].
    discriminate Ho.
Qed.

Lemma schema_valid_syntax_aux d :
  validate_cilium_schema d = [] ->
  exists s, Tester.select_specs d = Ok s /\
  _validate_policy_syntax (Ok d) =
    (if truthy s then mkSyntax true None []
     else syntax_failure "No policy specifications found. Expected 'specs' or 'spec' field").
Proof.
  intros H; apply ConvertedSchemaFacts.validate_nil_iff, schema_valid_root in H.
  destruct H as (kvs & -> & Ha & Hk & Hm & Hone).
  unfold _validate_policy_syntax, check_policy, Tester.select_specs.
  simpl. rewrite Ha, Hk.
  destruct (lookup "metadata" kvs); [|congruence]. simpl.
  destruct (lookup "specs" kvs) as [a|] eqn:Ea; destruct (lookup "spec" kvs) as [b|] eqn:Eb;
    simpl; try (destruct Hone; discriminate).
  all: repeat match goal with
              | |- context [truthy ?x] => is_var x; destruct (truthy x) eqn:?
              end; simpl.
  all: eexists; split; [reflexivity|]; simpl.
  all: unfold py_or; repeat match goal with H : truthy ?x = _ |- context [truthy ?x] => rewrite H end;
    reflexivity.
Qed.

End SchemaSyntax.

(** ** The simulator on converted policies *)

Module ConvertedSimulation.
Import Converter Tester Shape PolicyMatch ConvertedView SimulatorFacts ConvertedFacts GroupFacts
       ConvertedSchemaFacts.

Lemma Forall2_in_left {A B} (R : A -> B -> Prop) l1 l2 x :
  Forall2 R l1 l2 -> In x l1 -> exists y, In y l2 /\ R x y.
Proof.
  induction 1 as [|a b l1 l2 Hab _ IH]; intros Hx; [destruct Hx|].
  destruct Hx as [<-|Hin]; [exists b; simpl; auto|].
  destruct (IH Hin) as (y & Hy & Hr); exists y; simpl; auto.
Qed.

Lemma wf_spec_converted g sp : spec_of g = Ok sp -> wf_spec sp = true.
Proof.
  intros Hg; destruct (spec_of_value g sp Hg) as (ers & Hers & ->).
  apply map_res_Forall2 in Hers; clear Hg.
  unfold wf_spec; simpl.
  induction Hers as [|e er es ers He _ IH]; [reflexivity|].
  destruct (egress_rule_of_value e er He) as (kvs & d & pt & pq & _ & _ & _ & _ & ->).
  exact IH.
Qed.

Lemma select_specs_converted rs doc :
  convert_rules (VList rs) = Ok doc ->
  exists groups specs, group_rules rs [] = Ok groups /\ map_res spec_of groups = Ok specs
    /\ select_specs doc = Ok (VList specs).
Proof.
  intros H; destruct (convert_rules_groups rs doc H) as (groups & specs & Eg & Es & ->).
  exists groups, specs; split; [exact Eg|split; [exact Es|]].
  unfold select_specs; simpl. destruct specs; reflexivity.
Qed.

Lemma py_key_eq_str_eq k s : py_key_eq k (VStr s) = true -> k = VStr s.
Proof.
  destruct k; simpl; try discriminate.
  intros E; apply String.eqb_eq in E; subst; reflexivity.
Qed.

Lemma simulate_allows_converted_aux rs doc r s d :
  convert_rules (VList rs) = Ok doc -> In r rs ->
  dict_lookup r "src" = Some (VStr s) -> rule_dest r = VStr d ->
  exists reason, _simulate_policy_enforcement s d (py_str (opt_val (dict_lookup r "port"))) doc
                 = Ok (ALLOWED, reason).
Proof.
  intros H Hr Hs Hd.
  destruct (select_specs_converted rs doc H) as (groups & specs & Eg & Es & Hsel).
  apply map_res_Forall2 in Es.
  assert (Hwf : forallb wf_spec specs = true).
  { apply forallb_forall; intros sp Hsp.
    clear -Es Hsp; induction Es as [|g sp' gs sps Hg _ IH]; [destruct Hsp|].
    destruct Hsp as [<-|Hsp]; [exact (wf_spec_converted g sp' Hg)|auto]. }
  destruct (simulate_characterization s d (py_str (opt_val (dict_lookup r "port"))) doc specs
              Hsel Hwf) as ([st reason] & Hsim & Hallow & _).
  exists reason; rewrite Hsim; simpl in Hallow; rewrite Hallow; [reflexivity|].
  destruct (group_rules_covers rs [] groups r Eg (or_introl Hr)) as (g & Hg & Hrg).
  destruct (Forall2_in_left _ _ _ g Es Hg) as (sp & Hsp & Hspg).
  destruct (spec_of_value g sp Hspg) as (ers & Hers & ->).
  destruct (convert_groups_ok rs groups Eg g r Hg Hrg) as [_ (kvs & s' & -> & Hs' & Hk)].
  simpl in Hs; rewrite Hs in Hs'; injection Hs' as <-.
  apply py_key_eq_str_eq in Hk.
  destruct (Forall2_in_left _ _ _ _ (map_res_Forall2 _ _ _ Hers) Hrg) as (er & Her & Hrer).
  destruct (egress_rule_of_value _ er Hrer) as (kvs' & d' & pt & pq & E & Hd' & Hp & Hq & ->).
  injection E as <-.
  unfold rule_dest in Hd; simpl in Hd; rewrite Hd' in Hd; simpl in Hd; subst d'.
  exists (VDict [("endpointSelector", VDict [("matchLabels", VDict [("app", fst g)])]);
                 ("egress", VList ers)]).
  split; [exact Hsp|]. split; [unfold spec_app; simpl; rewrite Hk; reflexivity|].
  eexists; split; [exact Her|]. split.
  - eexists; split; [left; reflexivity|reflexivity].
  - right. eexists; split; [left; reflexivity|left]. simpl. rewrite Hp. reflexivity.
Qed.

End ConvertedSimulation.

(** ** The rules of the tests *)

Module RuleCountFacts.
Import Tester Shape PolicyMatch SimulatorFacts TesterRules RuleCount.

Lemma concat_res_len {A B} (f : A -> result (list B)) (g : A -> nat) (l : list A) :
  (forall x, In x l -> exists ys, f x = Ok ys /\ length ys = g x) ->
  exists ys, concat_res f l = Ok ys /\ length ys = list_sum (map g l).
Proof.
  induction l as [|x l IH]; intros H; simpl; [exists []; auto|].
  destruct (H x (or_introl eq_refl)) as (ys & Hx & Hl).
  destruct (IH (fun y Hy => H y (or_intror Hy))) as (zs & Hz & Hlz).
  rewrite Hx, Hz; simpl. exists (ys ++ zs); split; [reflexivity|].
  rewrite length_app; lia.
Qed.

Lemma py_get_dict_default (v : value) (k : string) :
  field_ok v k is_dict = true ->
  exists x, py_get v k (VDict []) = Ok x /\ is_dict x = true.
Proof.
  destruct v as [| | | | |kvs]; simpl; try discriminate.
  destruct (lookup k kvs) as [x|]; intros H; eexists;
    split; [reflexivity|exact H|reflexivity|reflexivity].
Qed.

Lemma port_values_len tp :
  wf_port_rule tp = true ->
  exists ps, port_values tp = Ok ps /\ length ps = length (list_field tp "ports").
Proof.
  intros H; destruct (py_get_list_field tp "ports" is_dict H) as [E Hd].
  unfold port_values; rewrite E; simpl; clear E H.
  induction (list_field tp "ports") as [|p l IH]; simpl in *; [exists []; auto|].
  apply andb_prop in Hd as [Hp Hl].
  destruct p as [| | | | |kvs]; try discriminate; simpl.
  destruct (IH Hl) as (ps & Eps & Hlen).
  rewrite Eps; simpl. eexists; split; [reflexivity|]; simpl; congruence.
Qed.

Lemma dest_rules_len src ports d :
  wf_selector d = true ->
  exists ys, dest_rules src ports d = Ok ys /\ length ys = Nat.max 1 (length ports).
Proof.
  intros H; unfold wf_selector in H.
  destruct (py_get_dict_default d "matchLabels" H) as (ml & Eml & Hml).
  unfold dest_rules; rewrite Eml; simpl.
  destruct ml as [| | | | |mkvs]; try discriminate; simpl.
  destruct ports; eexists; split; try reflexivity; simpl; rewrite ?length_map; lia.
Qed.

Lemma list_sum_const {A} (c : nat) (l : list A) : list_sum (map (fun _ => c) l) = length l * c.
Proof. induction l; simpl; lia. Qed.

Lemma length_flat_map' {A B} (f : A -> list B) (l : list A) :
  length (flat_map f l) = list_sum (map (fun x => length (f x)) l).
Proof. induction l; simpl; rewrite ?length_app; lia. Qed.

Lemma egress_rules_of_len src e :
  wf_egress e = true ->
  exists ys, egress_rules_of src e = Ok ys /\ length ys = egress_count e.
Proof.
  intros H.
  destruct (py_get_to_endpoints e H) as [Ed Hd].
  destruct (py_get_to_ports e H) as [Ep Hp].
  destruct (concat_res_len port_values (fun tp => length (list_field tp "ports"))
              (list_field e "toPorts")) as (ports & Eports & Hlen).
  { intros tp Htp; apply port_values_len.
    rewrite forallb_forall in Hp; exact (Hp tp Htp). }
  destruct (concat_res_len (dest_rules src ports) (fun _ => Nat.max 1 (length ports))
              (list_field e "toEndpoints")) as (ys & Eys & Hys).
  { intros d Hdm; apply dest_rules_len.
    rewrite forallb_forall in Hd; exact (Hd d Hdm). }
  unfold egress_rules_of; rewrite Ed, Ep; simpl; rewrite Eports; simpl; rewrite Eys.
  exists ys; split; [reflexivity|].
  rewrite Hys, list_sum_const; unfold egress_count, listed_ports.
  rewrite length_flat_map', <- Hlen; reflexivity.
Qed.

Lemma spec_rules_len s :
  wf_spec s = true ->
  exists ys, spec_rules s = Ok ys /\ length ys = spec_count s.
Proof.
  intros H.
  destruct (py_get_endpoint_selector s H) as (es & Ees & Hes & _).
  unfold wf_selector in Hes.
  destruct (py_get_dict_default es "matchLabels" Hes) as (ml & Eml & Hml).
  destruct ml as [| | | | |mkvs]; try discriminate.
  unfold wf_spec in H; apply andb_prop in H as [_ H].
  destruct (py_get_list_field s "egress" wf_egress H) as [Eg Hg].
  set (src := py_or (match lookup "app" mkvs with Some v => v | None => VNone end) (VStr "unknown")).
  destruct (concat_res_len (egress_rules_of src) egress_count (list_field s "egress"))
    as (ys & Eys & Hys).
  { intros e He; apply egress_rules_of_len. rewrite forallb_forall in Hg; exact (Hg e He). }
  unfold spec_rules; rewrite Ees; simpl; rewrite Eml; simpl; rewrite Eg; simpl.
  fold src; rewrite Eys.
  exists ys; split; [reflexivity|exact Hys].
Qed.

Lemma extract_rules_len cnp specs :
  select_specs cnp = Ok (VList specs) -> forallb wf_spec specs = true ->
  exists rules, _extract_rules cnp = Ok rules /\ length rules = list_sum (map spec_count specs).
Proof.
  intros Hsel Hwf.
  destruct (concat_res_len spec_rules spec_count specs) as (ys & Eys & Hys).
  { intros s Hs; apply spec_rules_len. rewrite forallb_forall in Hwf; exact (Hwf s Hs). }
  unfold _extract_rules; rewrite Hsel; simpl; rewrite Eys; eauto.
Qed.

End RuleCountFacts.

(** Suggestions on specs without an [endpointSelector], and the
    single-[spec] shape of [_extract_rules]. *)
Module SuggestionFacts.
Import Py Tester Validator TesterRules SuggestionNames.

Lemma missing_selector_suggestions hs i kvs l :
  kvs <> [] -> lookup "endpointSelector" kvs = None ->
  spec_suggestions hs i (VDict kvs) = Ok l ->
  In (spec_name hs i ++ ": Missing endpointSelector - policies should target specific endpoints")%string l
  /\ In (spec_name hs i ++ ": Empty endpointSelector targets all pods - consider being more specific")%string l.
Proof.
  intros Hne Hsel H.
  assert (Ht : truthy (VDict kvs) = true) by (destruct kvs; [congruence|reflexivity]).
  unfold spec_suggestions in H; fold (spec_name hs i) in H; rewrite Ht in H; simpl in H.
  rewrite Hsel in H.
  destruct (lookup "ingress" kvs) as [x|]; [destruct (truthy x)|];
    (destruct (lookup "egress" kvs) as [y|]; [destruct (truthy y)|]);
    simpl in H; injection H as <-; simpl; rewrite ?in_app_iff; simpl; auto 10.
Qed.

Lemma enumerate_in hs i items j skvs l msg :
  enumerate_suggestions hs i items = Ok l ->
  nth_error items j = Some (VDict skvs) ->
  (forall pre, spec_suggestions hs (i + j) (VDict skvs) = Ok pre -> In msg pre) ->
  In msg l.
Proof.
  revert i j l; induction items as [|x items IH]; intros i j l H Hj Hm; [destruct j; discriminate|].
  simpl in H.
  destruct (spec_suggestions hs i x) as [ss|e] eqn:Ex; simpl in H; [|discriminate].
  destruct (enumerate_suggestions hs (S i) items) as [rs|e] eqn:Er; simpl in H; [|discriminate].
  injection H as <-.
  destruct j as [|j]; simpl in Hj.
  - injection Hj as ->. apply in_or_app; left. apply Hm. rewrite Nat.add_0_r; exact Ex.
  - apply in_or_app; right. apply (IH (S i) j rs Er Hj).
    intros pre Hp; apply Hm. rewrite <- Hp; f_equal; lia.
Qed.

Lemma missing_selector_reported_aux kvs items j skvs l :
  lookup "kind" kvs = Some (VStr "CiliumNetworkPolicy") ->
  lookup "specs" kvs = Some (VList items) ->
  nth_error items j = Some (VDict skvs) -> skvs <> [] ->
  lookup "endpointSelector" skvs = None ->
  generate_suggestions (VDict kvs) = Ok l ->
  In (spec_name true j ++ ": Missing endpointSelector - policies should target specific endpoints")%string l
  /\ In (spec_name true j ++ ": Empty endpointSelector targets all pods - consider being more specific")%string l.
Proof.
  intros Hk Hs Hj Hne Hsel H.
  unfold generate_suggestions in H; rewrite Hk, Hs in H; simpl in H.
  destruct items as [|x0 items0]; [destruct j; discriminate|].
  simpl in H.
  destruct (spec_suggestions true 0 x0) as [ss|e] eqn:E1; simpl in H; [|discriminate].
  destruct (enumerate_suggestions true 1 items0) as [rs|e] eqn:E2; simpl in H; [|discriminate].
  injection H as <-.
  assert (Er : enumerate_suggestions true 0 (x0 :: items0) = Ok (ss ++ rs))
    by (simpl; rewrite E1, E2; reflexivity).
  split; apply in_or_app; right; apply (enumerate_in true 0 (x0 :: items0) j skvs _ _ Er Hj);
    simpl; intros p Hp; apply (missing_selector_suggestions true j skvs p Hne Hsel Hp).
Qed.

Lemma extract_rules_single_spec_aux kvs k v rest :
  truthy (match lookup "specs" kvs with Some v => v | None => VNone end) = false ->
  lookup "spec" kvs = Some (VDict ((k, v) :: rest)) ->
  _extract_rules (VDict kvs) = Exc (attr_error (VStr k) "get").
Proof.
  intros Ha Hb; unfold _extract_rules, Tester.select_specs; simpl.
  rewrite Ha, Hb; reflexivity.
Qed.

End SuggestionFacts.

(** Properties of the converter's output as the validator, the syntax
    check and the simulator see it. *)
Module PolicyExtras.
Import Py Tester Converter Validator TesterRules TesterSyntax PolicyMatch ConvertedView
       ConvertedSchema RuleCount SuggestionNames Examples ConvertedSchemaFacts
       ConvertedChecks SchemaSyntax ConvertedSimulation RuleCountFacts SuggestionFacts Shape.

(** A policy built by [convert_rules] passes [validate_cilium_schema]
    exactly when every input rule has a string [src], a string [dest]
    and a string [proto] whose upper-case form is one of the schema's
    protocols. *)
Theorem converted_schema_valid_iff (rs : list value) (doc : value)
    (H : convert_rules (VList rs) = Ok doc) :
  validate_cilium_schema doc = [] <-> Forall rule_schema_ok rs.
Proof. exact (converted_schema_iff rs doc H). Qed.

Lemma converted_schema_valid_iff_witness :
  exists doc, convert_rules frontend_rules = Ok doc /\
  (validate_cilium_schema doc = [] <->
   Forall rule_schema_ok [VDict [("src", VStr "frontend"); ("dest", VStr "backend");
                                 ("port", VInt 80); ("proto", VStr "tcp")]]).
Proof.
  eexists; split; [vm_compute; reflexivity|].
  apply converted_schema_valid_iff; vm_compute; reflexivity.
Defined.

(** A rule with protocol ["ICMPv6"] is converted to ["ICMPV6"], which
    the schema's protocol enum does not list: the converted policy
    always fails [validate_cilium_schema]. *)
Theorem converted_icmpv6_schema_invalid (rs : list value) (doc : value) (r : value)
    (H : convert_rules (VList rs) = Ok doc) (Hin : In r rs)
    (Hp : dict_lookup r "proto" = Some (VStr "ICMPv6")) :
  validate_cilium_schema doc <> [].
Proof.
  intros Hv; apply (converted_schema_iff rs doc H) in Hv.
  rewrite Forall_forall in Hv; destruct (Hv r Hin) as (_ & _ & Hl).
  unfold proto_listed, rule_proto in Hl; rewrite Hp in Hl; vm_compute in Hl; discriminate.
Qed.

Lemma converted_icmpv6_schema_invalid_witness :
  exists doc, convert_rules (VList [VDict [("src", VStr "frontend"); ("dest", VStr "backend");
                                            ("port", VInt 80); ("proto", VStr "ICMPv6")]])
              = Ok doc /\ validate_cilium_schema doc <> [].
Proof.
  eexists; split; [vm_compute; reflexivity|].
  apply (converted_icmpv6_schema_invalid
           [VDict [("src", VStr "frontend"); ("dest", VStr "backend");
                   ("port", VInt 80); ("proto", VStr "ICMPv6")]] _
           (VDict [("src", VStr "frontend"); ("dest", VStr "backend");
                   ("port", VInt 80); ("proto", VStr "ICMPv6")])).
  - vm_compute; reflexivity.
  - left; reflexivity.
  - reflexivity.
Defined.

(** [generate_suggestions] has nothing to say about a policy built by
    [convert_rules]: every spec has a selector and a non-empty egress
    list. *)
Theorem converted_no_suggestions (rs : list value) (doc : value)
    (H : convert_rules (VList rs) = Ok doc) :
  generate_suggestions doc = Ok [].
Proof. exact (generate_suggestions_converted_aux rs doc H). Qed.

Lemma converted_no_suggestions_witness :
  exists doc, convert_rules frontend_rules = Ok doc /\ generate_suggestions doc = Ok [].
Proof.
  eexists; split; [vm_compute; reflexivity|].
  apply (converted_no_suggestions [VDict [("src", VStr "frontend"); ("dest", VStr "backend");
                                           ("port", VInt 80); ("proto", VStr "tcp")]]).
  vm_compute; reflexivity.
Defined.

(** [validate_policy] on an existing file that parses to a converted
    policy returns a result with no syntax errors, the lint warnings as
    given, no suggestions, the schema errors of the document, and
    [is_valid] exactly when every rule is schema-valid. *)
Theorem validate_policy_of_converted (fp : string) (rs : list value) (doc : value)
    (lint : list value) (H : convert_rules (VList rs) = Ok doc) :
  exists r, validate_policy fp true (true, [], doc) lint = Ok r
    /\ yaml_syntax_errors r = [] /\ yaml_lint_warnings r = lint /\ suggestions r = []
    /\ schema_errors r = validate_cilium_schema doc
    /\ (is_valid r = true <-> Forall rule_schema_ok rs).
Proof. exact (validate_policy_converted_aux fp rs doc lint H). Qed.

Lemma validate_policy_of_converted_witness :
  exists doc, convert_rules (VList icmpv6_rules) = Ok doc /\
  exists r, validate_policy "policy.yaml" true (true, [], doc) [lint_warning] = Ok r
    /\ is_valid r = false /\ schema_errors r <> []
    /\ (yaml_syntax_errors r = [] /\ yaml_lint_warnings r = [lint_warning] /\ suggestions r = []
       /\ schema_errors r = validate_cilium_schema doc
       /\ (is_valid r = true <-> Forall rule_schema_ok icmpv6_rules)).
Proof.
  eexists; split; [vm_compute; reflexivity|].
  match goal with
  | |- exists r, validate_policy _ _ (_, _, ?d) _ = _ /\ _ =>
      destruct (validate_policy_of_converted "policy.yaml" icmpv6_rules d [lint_warning])
        as (r & Hr & Hrest)
  end.
  - vm_compute; reflexivity.
  - exists r; split; [exact Hr|].
    assert (Hv : is_valid r = false)
      by (rewrite <- (f_equal (fun x => match x with Ok r => is_valid r | Exc _ => true end) Hr);
          vm_compute; reflexivity).
    split; [exact Hv|]; split; [|exact Hrest].
    destruct Hrest as (_ & _ & _ & Hs & _); rewrite Hs; vm_compute; discriminate.
Defined.

(** [_validate_policy_syntax] accepts a converted policy exactly when the
    rule list was not empty; for no rules it reports that no policy
    specifications were found.  It never adds a warning. *)
Theorem converted_syntax_check (rs : list value) (doc : value)
    (H : convert_rules (VList rs) = Ok doc) :
  _validate_policy_syntax (Ok doc) =
    match rs with
    | [] => syntax_failure "No policy specifications found. Expected 'specs' or 'spec' field"
    | _ => mkSyntax true None []
    end.
Proof. exact (converted_syntax_aux rs doc H). Qed.

Lemma converted_syntax_check_witness :
  (exists doc, convert_rules (VList grouping_rules) = Ok doc /\
   _validate_policy_syntax (Ok doc) = mkSyntax true None []) /\
  (exists doc, convert_rules (VList []) = Ok doc /\
   _validate_policy_syntax (Ok doc) =
     syntax_failure "No policy specifications found. Expected 'specs' or 'spec' field").
Proof.
  split.
  - eexists; split; [vm_compute; reflexivity|].
    apply (converted_syntax_check grouping_rules); vm_compute; reflexivity.
  - eexists; split; [vm_compute; reflexivity|].
    apply (converted_syntax_check []); vm_compute; reflexivity.
Defined.

(** On a document with no schema errors, [_validate_policy_syntax]
    gives no warnings: it accepts it when the specs [_extract_rules]
    selects are truthy and otherwise reports that no policy
    specifications were found. *)
Theorem schema_valid_syntax_agrees (d : value) (H : validate_cilium_schema d = []) :
  exists s, select_specs d = Ok s /\
  _validate_policy_syntax (Ok d) =
    (if truthy s then mkSyntax true None []
     else syntax_failure "No policy specifications found. Expected 'specs' or 'spec' field").
Proof. exact (schema_valid_syntax_aux d H). Qed.

Lemma schema_valid_syntax_agrees_witness :
  validate_cilium_schema two_spec_doc = [] /\
  exists s, select_specs two_spec_doc = Ok s /\
  _validate_policy_syntax (Ok two_spec_doc) =
    (if truthy s then mkSyntax true None []
     else syntax_failure "No policy specifications found. Expected 'specs' or 'spec' field").
Proof.
  split; [vm_compute; reflexivity|].
  apply schema_valid_syntax_agrees; vm_compute; reflexivity.
Defined.

(** [_simulate_policy_enforcement] allows every connection a converted
    policy was built from: source [src], destination [dest] and port
    [str(port)] of any input rule whose [src] and [dest] are strings. *)
Theorem simulate_allows_converted (rs : list value) (doc r : value) (s d : string)
    (H : convert_rules (VList rs) = Ok doc) (Hin : In r rs)
    (Hs : dict_lookup r "src" = Some (VStr s)) (Hd : rule_dest r = VStr d) :
  exists reason,
    _simulate_policy_enforcement s d (py_str (opt_val (dict_lookup r "port"))) doc
    = Ok (ALLOWED, reason).
Proof. exact (simulate_allows_converted_aux rs doc r s d H Hin Hs Hd). Qed.

Lemma simulate_allows_converted_witness :
  exists doc, convert_rules frontend_rules = Ok doc /\
  exists reason, _simulate_policy_enforcement "frontend" "backend" "80" doc = Ok (ALLOWED, reason).
Proof.
  eexists; split; [vm_compute; reflexivity|].
  apply (simulate_allows_converted
           [VDict [("src", VStr "frontend"); ("dest", VStr "backend");
                   ("port", VInt 80); ("proto", VStr "tcp")]] _
           (VDict [("src", VStr "frontend"); ("dest", VStr "backend");
                   ("port", VInt 80); ("proto", VStr "tcp")])).
  - vm_compute; reflexivity.
  - left; reflexivity.
  - reflexivity.
  - reflexivity.
Defined.

(** When [specs] is falsy and [spec] is a non-empty mapping,
    [_extract_rules] iterates the mapping's keys as if they were specs
    and raises AttributeError on the first key's [.get]. *)
Theorem extract_rules_single_spec_fails (kvs : list (string * value)) (k : string) (v : value)
    (rest : list (string * value))
    (Ha : truthy (match lookup "specs" kvs with Some v => v | None => VNone end) = false)
    (Hb : lookup "spec" kvs = Some (VDict ((k, v) :: rest))) :
  _extract_rules (VDict kvs) = Exc (attr_error (VStr k) "get").
Proof. exact (extract_rules_single_spec_aux kvs k v rest Ha Hb). Qed.

Lemma extract_rules_single_spec_fails_witness :
  _extract_rules single_spec_doc = Exc (attr_error (VStr "endpointSelector") "get").
Proof.
  apply (extract_rules_single_spec_fails
           [("apiVersion", VStr "cilium.io/v2");
            ("kind", VStr "CiliumNetworkPolicy");
            ("metadata", VDict [("name", VStr "frontend-policy")]);
            ("spec", VDict [("endpointSelector", app_selector "frontend");
                            ("egress", VList [VDict [("toEndpoints",
                                                      VList [app_selector "backend"])]])])]
           "endpointSelector" (app_selector "frontend") [("egress", VList [VDict [("toEndpoints", VList [app_selector "backend"])]])]).
  - reflexivity.
  - reflexivity.
Defined.

(** On a specs list where every spec, egress rule and port rule has the
    shape the code reads, [_extract_rules] succeeds and lists, per spec
    and egress rule, one rule per destination endpoint times the number
    of listed ports (at least one). *)
Theorem extract_rules_count (cnp : value) (specs : list value)
    (H : select_specs cnp = Ok (VList specs)) (Hw : forallb wf_spec specs = true) :
  exists rules, _extract_rules cnp = Ok rules /\ length rules = list_sum (map spec_count specs).
Proof. exact (extract_rules_len cnp specs H Hw). Qed.

Lemma extract_rules_count_witness :
  exists rules, _extract_rules two_spec_doc = Ok rules /\
                length rules = list_sum (map spec_count two_spec_specs).
Proof.
  apply extract_rules_count; vm_compute; reflexivity.
Defined.

(** For a CiliumNetworkPolicy with a [specs] list, [generate_suggestions]
    reports both "Missing endpointSelector" and "Empty endpointSelector
    targets all pods" for every non-empty spec mapping that has no
    [endpointSelector], labelled [spec[j]]. *)
Theorem missing_selector_reported (kvs : list (string * value)) (items : list value) (j : nat)
    (skvs : list (string * value)) (l : list string)
    (Hk : lookup "kind" kvs = Some (VStr "CiliumNetworkPolicy"))
    (Hs : lookup "specs" kvs = Some (VList items))
    (Hj : nth_error items j = Some (VDict skvs)) (Hne : skvs <> [])
    (Hsel : lookup "endpointSelector" skvs = None)
    (H : generate_suggestions (VDict kvs) = Ok l) :
  In (spec_name true j ++ ": Missing endpointSelector - policies should target specific endpoints")%string l
  /\ In (spec_name true j ++ ": Empty endpointSelector targets all pods - consider being more specific")%string l.
Proof. exact (missing_selector_reported_aux kvs items j skvs l Hk Hs Hj Hne Hsel H). Qed.

Lemma missing_selector_reported_witness :
  exists l, generate_suggestions partial_doc = Ok l /\
  In (spec_name true 0 ++ ": Missing endpointSelector - policies should target specific endpoints")%string l
  /\ In (spec_name true 0 ++ ": Empty endpointSelector targets all pods - consider being more specific")%string l.
Proof.
  eexists; split; [vm_compute; reflexivity|].
  apply (missing_selector_reported
           [("apiVersion", VStr "cilium.io/v2");
            ("kind", VStr "CiliumNetworkPolicy");
            ("metadata", VDict [("name", VStr "partial")]);
            ("specs", VList [partial_spec])]
           [partial_spec] 0
           [("egress", VList [VDict [("toEndpoints", VList [VDict []; app_selector "db"])]])]).
  - reflexivity.
  - reflexivity.
  - reflexivity.
  - discriminate.
  - reflexivity.
  - vm_compute; reflexivity.
Defined.

End PolicyExtras.
